(** * The trade decision-and-execution engine of [src/bot.ts]

    A shallow embedding of class [Bot]: the admission gate of [buy], the
    buy and sell retry pipelines, the qualification loop [filterMatch] and
    the exit-signal loop [waitForSellSignal], the instruction list of [swap],
    the bookkeeping of [swap_log] and the start-up in [init], followed by
    the properties established for them.

    Conventions of the embedding.
    - A [TokenAmount] of the quote token is its raw [BN] value, an integer
      number of smallest units; every amount the exit-signal loop compares
      is an amount of [config.quoteToken], so all of them share one
      denominator and [lt] / [gt] compare raw values.
    - Configuration numbers that the code feeds to [BN] arithmetic or
      compares with [=== 0] are integers ([Z]).
    - [duration / interval] is a JavaScript number; it is kept as an exact
      rational ([Q]), which orders the integer round counter the same way
      for durations and intervals below [2^53] ([timesExact]); beyond that
      the double can round down to an integer and the code runs one round
      fewer, so the model gives an upper bound of the rounds there.
    - The pool library refuses numbers outside its safe range when it
      multiplies an amount; the model computes on all of [Z], and agrees
      with the code where the percentages are accepted
      ([percentagesAccepted]).
    - The remote calls (pool quotes, the filter evaluator, transaction
      confirmation, balance queries, the journal write) are inputs of the
      model: each function takes the answers its calls receive. *)

From Stdlib Require Import ZArith QArith Qround Lia Bool.
From stdpp Require Import gmap strings.

Local Open Scope Z_scope.

(** ** Amounts *)

(** [BN.div]: integer division truncated towards zero. *)
Definition BN_div (a b : Z) : Z := Z.quot a b.

Module TokenAmount.

Record t : Type := mk { raw : Z }.

(** [a.mul(k).numerator] for an integer [k]: the fraction
    [raw / 10^decimals] times [k / 1] has numerator [raw * k]. *)
Definition mul_numerator (a : t) (k : Z) : Z := raw a * k.

Definition add (a b : t) : t := mk (raw a + raw b).
Definition subtract (a b : t) : t := mk (raw a - raw b).
Definition lt (a b : t) : bool := raw a <? raw b.
Definition gt (a b : t) : bool := raw b <? raw a.
Definition isZero (a : t) : bool := raw a =? 0.

End TokenAmount.

Abbreviation TokenAmount := TokenAmount.t.

(** ** Configuration *)

Module BotConfig.

Record t : Type := mk {
  quoteAmount : TokenAmount;
  maxTokensAtTheTime : Z;
  useSnipeList : bool;
  maxBuyRetries : nat;
  maxSellRetries : nat;
  takeProfit : Z;
  stopLoss : Z;
  trailingStopLoss : bool;
  skipSellingIfLostMoreThan : Z;
  priceCheckInterval : Z;
  priceCheckDuration : Z;
  filterCheckInterval : Z;
  filterCheckDuration : Z;
  consecutiveMatchCount : Z
}.

End BotConfig.

Abbreviation BotConfig := BotConfig.t.

(** ** Polling budgets *)

(** [duration / interval], used as [timesToCheck] by both loops. *)
Definition timesToCheck (duration interval : Z) : Q :=
  (inject_Z duration / inject_Z interval)%Q.

(** The loop condition [timesChecked < timesToCheck]. *)
Definition belowBudget (timesChecked : nat) (budget : Q) : bool :=
  negb (Qle_bool budget (inject_Z (Z.of_nat timesChecked))).

(** Enough iterations for a counter that starts at 0 to reach [budget]. *)
Definition loopFuel (budget : Q) : nat := S (Z.to_nat (Qceiling budget)).

(** ** The exit-signal loop *)

(** The per-mint stop-loss watermarks, [Bot.stopLoss]. *)
Abbreviation Watermarks := (gmap string TokenAmount).

(** [amount.mul(pct).numerator.div(new BN(100))] wrapped in a raw
    [TokenAmount] of the quote token. *)
Definition percentOf (amount : TokenAmount) (pct : Z) : TokenAmount :=
  TokenAmount.mk (BN_div (TokenAmount.mul_numerator amount pct) 100).

(** Lines 481-483. *)
Definition takeProfitThreshold (cfg : BotConfig) : TokenAmount :=
  TokenAmount.add (BotConfig.quoteAmount cfg)
                  (percentOf (BotConfig.quoteAmount cfg) (BotConfig.takeProfit cfg)).

(** Lines 486-494: the local [stopLoss] and the map after the lookup. A
    stored [TokenAmount] is an object, so [!this.stopLoss.get(mint)] holds
    exactly when the mint has no entry. *)
Definition initStopLoss (cfg : BotConfig) (mint : string) (wm : Watermarks)
  : TokenAmount * Watermarks :=
  match wm !! mint with
  | None =>
      let stopLoss :=
        TokenAmount.subtract (BotConfig.quoteAmount cfg)
          (percentOf (BotConfig.quoteAmount cfg) (BotConfig.stopLoss cfg)) in
      (stopLoss, <[mint := stopLoss]> wm)
  | Some stored => (stored, wm)
  end.

(** How one pass through the body of the [do ... while] leaves it. *)
Inductive RoundResult : Type :=
| RoundReturn (result : bool) (wm : Watermarks)
| RoundBreak (wm : Watermarks)
| RoundNext (stopLoss : TokenAmount) (wm : Watermarks).

(** Lines 514-527. *)
Definition trailingUpdate (cfg : BotConfig) (mint : string)
    (amountOut stopLoss : TokenAmount) (wm : Watermarks)
  : TokenAmount * Watermarks :=
  if BotConfig.trailingStopLoss cfg then
    let trailingStopLoss :=
      TokenAmount.subtract amountOut (percentOf amountOut (BotConfig.stopLoss cfg)) in
    if TokenAmount.gt trailingStopLoss stopLoss
    then (trailingStopLoss, <[mint := trailingStopLoss]> wm)
    else (stopLoss, wm)
  else (stopLoss, wm).

(** Lines 529-544: does the max-loss cutoff fire? *)
Definition maxLossCutoff (cfg : BotConfig) (amountOut : TokenAmount) : bool :=
  (0 <? BotConfig.skipSellingIfLostMoreThan cfg)
  && TokenAmount.lt amountOut
       (percentOf (BotConfig.quoteAmount cfg) (BotConfig.skipSellingIfLostMoreThan cfg)).

(** Lines 500-566. [quote] is what [Liquidity.fetchInfo] and
    [computeAmountOut] produce in this round: [None] when they throw, which
    the [catch] of the loop body absorbs. *)
Definition priceRound (cfg : BotConfig) (mint : string) (takeProfit : TokenAmount)
    (quote : option TokenAmount) (stopLoss : TokenAmount) (wm : Watermarks)
  : RoundResult :=
  match quote with
  | None => RoundNext stopLoss wm
  | Some amountOut =>
      let '(stopLoss, wm) := trailingUpdate cfg mint amountOut stopLoss wm in
      if maxLossCutoff cfg amountOut then RoundReturn false (delete mint wm)
      else if TokenAmount.lt amountOut stopLoss then RoundBreak (delete mint wm)
      else if TokenAmount.gt amountOut takeProfit then RoundBreak (delete mint wm)
      else RoundNext stopLoss wm
  end.

(** How the loop as a whole ends. *)
Inductive LoopExit : Type :=
| ExitReturn (result : bool)
| ExitBreak
| ExitBudget.

Section ExitSignal.

Variable cfg : BotConfig.
Variable mint : string.
(** The quote obtained in round [timesChecked]. *)
Variable quotes : nat -> option TokenAmount.

Definition priceBudget : Q :=
  timesToCheck (BotConfig.priceCheckDuration cfg) (BotConfig.priceCheckInterval cfg).

(** The [do ... while (timesChecked < timesToCheck)] of lines 499-567,
    with the constant [takeProfit] and the variable [stopLoss] of the
    enclosing function. *)
Fixpoint priceLoop (takeProfit : TokenAmount) (fuel timesChecked : nat)
    (stopLoss : TokenAmount) (wm : Watermarks) : option (LoopExit * Watermarks) :=
  match fuel with
  | O => None
  | S fuel' =>
      match priceRound cfg mint takeProfit (quotes timesChecked) stopLoss wm with
      | RoundReturn result wm' => Some (ExitReturn result, wm')
      | RoundBreak wm' => Some (ExitBreak, wm')
      | RoundNext stopLoss' wm' =>
          if belowBudget (S timesChecked) priceBudget
          then priceLoop takeProfit fuel' (S timesChecked) stopLoss' wm'
          else Some (ExitBudget, wm')
      end
  end.

(** The local [stopLoss] and the map at the start of round [n], counted
    from a round that starts with [timesChecked], [stopLoss] and [wm];
    [None] when the loop has ended before. *)
Fixpoint roundState (takeProfit : TokenAmount) (n timesChecked : nat)
    (stopLoss : TokenAmount) (wm : Watermarks) : option (TokenAmount * Watermarks) :=
  match n with
  | O => Some (stopLoss, wm)
  | S n' =>
      match priceRound cfg mint takeProfit (quotes timesChecked) stopLoss wm with
      | RoundNext stopLoss' wm' =>
          if belowBudget (S timesChecked) priceBudget
          then roundState takeProfit n' (S timesChecked) stopLoss' wm'
          else None
      | _ => None
      end
  end.

(** The value of the function after the loop: [return false] inside the
    loop, or the [return true] of line 569. *)
Definition exitValue (e : LoopExit) : bool :=
  match e with
  | ExitReturn result => result
  | ExitBreak | ExitBudget => true
  end.

Definition priceCheckDisabled : bool :=
  (BotConfig.priceCheckDuration cfg =? 0) || (BotConfig.priceCheckInterval cfg =? 0).

(** The loop entered from the thresholds of lines 480-494. *)
Definition sellSignalLoop (wm : Watermarks) : option (LoopExit * Watermarks) :=
  let '(stopLoss, wm0) := initStopLoss cfg mint wm in
  priceLoop (takeProfitThreshold cfg) (loopFuel priceBudget) 0 stopLoss wm0.

(** The state at the start of round [n] of one call. *)
Definition sellSignalState (wm : Watermarks) (n : nat)
  : option (TokenAmount * Watermarks) :=
  let '(stopLoss, wm0) := initStopLoss cfg mint wm in
  roundState (takeProfitThreshold cfg) n 0 stopLoss wm0.

Definition waitForSellSignal (wm : Watermarks) : option (bool * Watermarks) :=
  if priceCheckDisabled then Some (true, wm)
  else
    match sellSignalLoop wm with
    | Some (e, wm') => Some (exitValue e, wm')
    | None => None
    end.

End ExitSignal.

(** ** The qualification loop *)

(** How a call that may throw completes. *)
Inductive Outcome (A : Type) : Type :=
| Returned (a : A)
| Thrown.

Arguments Returned {A} a.
Arguments Thrown {A}.

(** How one pass through the body of the [do ... while] of [filterMatch]
    leaves it. *)
Inductive FilterRound : Type :=
| FilterReturn (result : bool)
| FilterThrow
| FilterNext (matchCount : Z).

(** Lines 449-469. [answer] is what [filters.execute(poolKeys)] does in
    this round. The [try] has a [finally] and no [catch]: a throw runs
    [timesChecked++] and leaves the loop as a throw. *)
Definition filterRound (cfg : BotConfig) (answer : Outcome bool) (matchCount : Z)
  : FilterRound :=
  match answer with
  | Thrown => FilterThrow
  | Returned true =>
      let matchCount := matchCount + 1 in
      if BotConfig.consecutiveMatchCount cfg <=? matchCount
      then FilterReturn true
      else FilterNext matchCount
  | Returned false => FilterNext 0
  end.

Section Qualification.

Variable cfg : BotConfig.
(** The answer of the filter evaluator in round [timesChecked]. *)
Variable answers : nat -> Outcome bool.

Definition filterBudget : Q :=
  timesToCheck (BotConfig.filterCheckDuration cfg) (BotConfig.filterCheckInterval cfg).

(** The [do ... while (timesChecked < timesToCheck)] of lines 448-470 and
    the [return false] of line 472. *)
Fixpoint filterLoop (fuel timesChecked : nat) (matchCount : Z)
  : option (Outcome bool) :=
  match fuel with
  | O => None
  | S fuel' =>
      match filterRound cfg (answers timesChecked) matchCount with
      | FilterReturn result => Some (Returned result)
      | FilterThrow => Some Thrown
      | FilterNext matchCount' =>
          if belowBudget (S timesChecked) filterBudget
          then filterLoop fuel' (S timesChecked) matchCount'
          else Some (Returned false)
      end
  end.

(** [matchCount] at the start of round [n], counted from a round that
    starts with [timesChecked] and [matchCount]; [None] when the loop has
    ended before. *)
Fixpoint filterState (n timesChecked : nat) (matchCount : Z) : option Z :=
  match n with
  | O => Some matchCount
  | S n' =>
      match filterRound cfg (answers timesChecked) matchCount with
      | FilterNext matchCount' =>
          if belowBudget (S timesChecked) filterBudget
          then filterState n' (S timesChecked) matchCount'
          else None
      | _ => None
      end
  end.

Definition filterCheckDisabled : bool :=
  (BotConfig.filterCheckInterval cfg =? 0) || (BotConfig.filterCheckDuration cfg =? 0).

Definition filterMatch : option (Outcome bool) :=
  if filterCheckDisabled then Some (Returned true)
  else filterLoop (loopFuel filterBudget) 0 0.

End Qualification.

(** ** Trades and the journal *)

Module Trade.

(** Modelled from the spec: the lifecycle states of the absent class
    [Trade] of [./helpers], [Idle -> Started -> Opened -> Closed]. *)
Inductive State : Type := Idle | Started | Opened | Closed.

(** Modelled from the spec: the data of the absent class [Trade]: the mint,
    the state, entry and exit amounts and fees, the closure reason, the
    profit, and the sequence id and balance snapshot of its journal record.
    Its quantities are JavaScript numbers, kept here as exact rationals. *)
Record t : Type := mk {
  mint : string;
  state : State;
  entryAmount : Q;
  entryFee : Q;
  exitAmount : Q;
  exitFee : Q;
  reason : string;
  profit : Q;
  id : Z;
  balance : Q
}.

(** Modelled from the spec: the constructor of the absent class [Trade];
    a new trade is [Idle]. *)
Definition create (mint : string) : t :=
  mk mint Idle 0 0 0 0 "" 0 0 0.

(** Modelled from the spec: [transitionStart] of the absent class [Trade];
    [Started] marks the moment an attempt begins. *)
Definition transitionStart (tr : t) : t :=
  mk (mint tr) Started (entryAmount tr) (entryFee tr) (exitAmount tr)
     (exitFee tr) (reason tr) (profit tr) (id tr) (balance tr).

(** Modelled from the spec: [close] of the absent class [Trade]; [Closed]
    records exit amount, exit fee and a closure reason, and profit is
    exit amount minus entry amount minus fees, computed at close. *)
Definition close (amountOut fee : Q) (why : string) (tr : t) : t :=
  mk (mint tr) Closed (entryAmount tr) (entryFee tr) amountOut fee why
     (amountOut - entryAmount tr - (entryFee tr + fee))%Q (id tr) (balance tr).

(** Modelled from the spec: the record that [completeAndLog] of the absent
    class [Trade] appends to the journal, tagged with the sequence id and
    the balance snapshot. *)
Definition complete (total : Q) (seq : Z) (tr : t) : t :=
  mk (mint tr) (state tr) (entryAmount tr) (entryFee tr) (exitAmount tr)
     (exitFee tr) (reason tr) (profit tr) seq total.

End Trade.

Abbreviation Trade := Trade.t.

(** ** The semaphore *)

(** [Semaphore] of async-mutex, by its value. *)
Module Semaphore.

Definition getValue (value : Z) : Z := value.
Definition isLocked (value : Z) : bool := value <=? 0.

(** [acquire()] takes one unit at once when one is free (no task ever
    queues in [Bot]); [None] when the caller would have to wait. *)
Definition acquire (value : Z) : option Z :=
  if 1 <=? value then Some (value - 1) else None.

Definition release (value : Z) : Z := value + 1.

End Semaphore.

(** ** The bot *)

(** The mutable fields of [Bot], and the lines of the journal file. *)
Record Bot : Type := mkBot {
  balance : Q;
  tradesCount : Z;
  trades : gmap string Trade;
  semaphore : Z;
  sellExecutionCount : Z;
  stopLoss : Watermarks;
  journal : list Trade
}.

Definition setBalance (total : Q) (bot : Bot) : Bot :=
  mkBot total (tradesCount bot) (trades bot) (semaphore bot)
        (sellExecutionCount bot) (stopLoss bot) (journal bot).

Definition setTradesCount (n : Z) (bot : Bot) : Bot :=
  mkBot (balance bot) n (trades bot) (semaphore bot)
        (sellExecutionCount bot) (stopLoss bot) (journal bot).

Definition setTrades (m : gmap string Trade) (bot : Bot) : Bot :=
  mkBot (balance bot) (tradesCount bot) m (semaphore bot)
        (sellExecutionCount bot) (stopLoss bot) (journal bot).

Definition setSemaphore (value : Z) (bot : Bot) : Bot :=
  mkBot (balance bot) (tradesCount bot) (trades bot) value
        (sellExecutionCount bot) (stopLoss bot) (journal bot).

Definition setSellExecutionCount (n : Z) (bot : Bot) : Bot :=
  mkBot (balance bot) (tradesCount bot) (trades bot) (semaphore bot)
        n (stopLoss bot) (journal bot).

Definition setStopLoss (wm : Watermarks) (bot : Bot) : Bot :=
  mkBot (balance bot) (tradesCount bot) (trades bot) (semaphore bot)
        (sellExecutionCount bot) wm (journal bot).

Definition setJournal (lines : list Trade) (bot : Bot) : Bot :=
  mkBot (balance bot) (tradesCount bot) (trades bot) (semaphore bot)
        (sellExecutionCount bot) (stopLoss bot) lines.

(** ** Admission *)

(** Lines 147-148. *)
Definition numberOfActionsBeingProcessed (cfg : BotConfig) (bot : Bot) : Z :=
  BotConfig.maxTokensAtTheTime cfg - Semaphore.getValue (semaphore bot)
  + sellExecutionCount bot.

(** The condition of line 149. *)
Definition buyRejected (cfg : BotConfig) (bot : Bot) : bool :=
  Semaphore.isLocked (semaphore bot)
  || (BotConfig.maxTokensAtTheTime cfg <=? numberOfActionsBeingProcessed cfg bot).

(** Lines 147-157, which run without a suspension point: [Some] with the
    permit taken when the attempt is admitted, [None] when it is skipped. *)
Definition tryAdmitBuy (cfg : BotConfig) (bot : Bot) : option Bot :=
  if buyRejected cfg bot then None
  else
    match Semaphore.acquire (semaphore bot) with
    | Some value => Some (setSemaphore value bot)
    | None => None
    end.

(** Line 226. *)
Definition releaseBuy (bot : Bot) : Bot :=
  setSemaphore (Semaphore.release (semaphore bot)) bot.

(** Line 231. *)
Definition sellEnter (bot : Bot) : Bot :=
  setSellExecutionCount (sellExecutionCount bot + 1) bot.

(** Line 334. *)
Definition sellLeave (bot : Bot) : Bot :=
  setSellExecutionCount (sellExecutionCount bot - 1) bot.

(** The interleaving of tasks at the admission gate. Tasks run on one
    cooperative thread, so each of these segments is atomic. The second
    component counts the buy tasks that are between their [acquire] and
    their [release]. *)
Inductive gateStep (cfg : BotConfig) : Bot * nat -> Bot * nat -> Prop :=
| gate_admit bot bot' holders :
    tryAdmitBuy cfg bot = Some bot' ->
    gateStep cfg (bot, holders) (bot', S holders)
| gate_skip bot holders :
    tryAdmitBuy cfg bot = None ->
    gateStep cfg (bot, holders) (bot, holders)
| gate_release bot holders :
    gateStep cfg (bot, S holders) (releaseBuy bot, holders)
| gate_sell_enter bot holders :
    gateStep cfg (bot, holders) (sellEnter bot, holders)
| gate_sell_leave bot holders :
    0 < sellExecutionCount bot ->
    gateStep cfg (bot, holders) (sellLeave bot, holders)
| gate_other bot bot' holders :
    semaphore bot' = semaphore bot ->
    sellExecutionCount bot' = sellExecutionCount bot ->
    gateStep cfg (bot, holders) (bot', holders).

(** A bot as its constructor leaves it, with all permits free. *)
Definition gateInitial (cfg : BotConfig) (s : Bot * nat) : Prop :=
  semaphore (fst s) = BotConfig.maxTokensAtTheTime cfg
  /\ sellExecutionCount (fst s) = 0
  /\ snd s = O.

Definition gateReachable (cfg : BotConfig) (s : Bot * nat) : Prop :=
  exists s0, gateInitial cfg s0 /\ rtc (gateStep cfg) s0 s.

(** ** The buy pipeline *)

(** What the remote calls of one [buy] answer. *)
Record BuyEnv : Type := mkBuyEnv {
  (** [snipeListCache.isInList(mint)] *)
  inSnipeList : bool;
  (** lines 160-164: the market lookup, the token account address and the
      pool keys *)
  buyAccounts : Outcome unit;
  (** [filters.execute] in each round of [filterMatch] *)
  filterAnswers : nat -> Outcome bool;
  (** attempt [i] of [swap]: [result.confirmed], or a throw *)
  buySwaps : nat -> Outcome bool
}.

(** The way a call of [buy] ends, one per log message. *)
Inductive BuyPath : Type :=
| BuyNotListed
| BuySkipped
| BuyNoMatch
| BuyFailed
| BuyConfirmed
| BuyUnconfirmed.

(** Lines 179-221. The [try] inside the loop body absorbs every throw of an
    attempt; [true] when an attempt was confirmed and the loop left by
    [break]. *)
Fixpoint buyRetryLoop (swaps : nat -> Outcome bool) (remaining i : nat) : bool :=
  match remaining with
  | O => false
  | S remaining' =>
      match swaps i with
      | Returned true => true
      | Returned false | Thrown => buyRetryLoop swaps remaining' (S i)
      end
  end.

(** Lines 175-221, after the filters have matched. *)
Definition buyOpen (cfg : BotConfig) (env : BuyEnv) (mint : string) (bot : Bot)
  : BuyPath * Bot :=
  let trade := Trade.transitionStart (Trade.create mint) in
  let bot := setTrades (<[mint := trade]> (trades bot)) bot in
  if buyRetryLoop (buySwaps env) (BotConfig.maxBuyRetries cfg) 0
  then (BuyConfirmed, bot)
  else (BuyUnconfirmed, bot).

(** The [try] block, lines 160-221: [Thrown] when an exception reaches the
    [catch] of line 222. *)
Definition buyTry (cfg : BotConfig) (env : BuyEnv) (mint : string) (bot : Bot)
  : option (Outcome BuyPath * Bot) :=
  match buyAccounts env with
  | Thrown => Some (Thrown, bot)
  | Returned _ =>
      if BotConfig.useSnipeList cfg
      then let '(path, bot') := buyOpen cfg env mint bot in Some (Returned path, bot')
      else
        match filterMatch cfg (filterAnswers env) with
        | None => None
        | Some Thrown => Some (Thrown, bot)
        | Some (Returned false) => Some (Returned BuyNoMatch, bot)
        | Some (Returned true) =>
            let '(path, bot') := buyOpen cfg env mint bot in Some (Returned path, bot')
        end
  end.

(** Lines 134-228. *)
Definition buy (cfg : BotConfig) (env : BuyEnv) (mint : string) (bot : Bot)
  : option (BuyPath * Bot) :=
  if BotConfig.useSnipeList cfg && negb (inSnipeList env) then Some (BuyNotListed, bot)
  else
    match tryAdmitBuy cfg bot with
    | None => Some (BuySkipped, bot)
    | Some bot1 =>
        match buyTry cfg env mint bot1 with
        | None => None
        | Some (Returned path, bot2) => Some (path, releaseBuy bot2)
        | Some (Thrown, bot2) =>
            Some (BuyFailed, releaseBuy (setTrades (delete mint (trades bot2)) bot2))
        end
    end.

(** ** The sell pipeline *)

Record RawAccount : Type := mkRawAccount {
  mint : string;
  amount : Z
}.

(** What the remote calls of one [sell] answer. *)
Record SellEnv : Type := mkSellEnv {
  (** [poolStorage.get]: found, not found, or a throw *)
  poolData : Outcome bool;
  (** lines 256-262: the market lookup and the pool keys *)
  sellAccounts : Outcome unit;
  (** the quote of round [k] of [waitForSellSignal] in attempt [i] *)
  sellQuotes : nat -> nat -> option TokenAmount;
  (** attempt [i] of [swap]: [result.confirmed], or a throw *)
  sellSwaps : nat -> Outcome bool;
  (** [updateBalance]: the wallet and quote account total, or a throw *)
  refreshedBalance : Outcome Q;
  (** [completeAndLog] wrote its line and returned no error *)
  journalWritten : bool
}.

(** Lines 268-317. The [try] inside the loop body absorbs every throw of an
    attempt, so the loop ends by [return] (no sell signal), by [break]
    (confirmed) or by running out of attempts. *)
Fixpoint sellRetryLoop (cfg : BotConfig) (env : SellEnv) (mint : string)
    (remaining i : nat) (bot : Bot) : option Bot :=
  match remaining with
  | O => Some bot
  | S remaining' =>
      match waitForSellSignal cfg mint (sellQuotes env i) (stopLoss bot) with
      | None => None
      | Some (false, wm) => Some (setStopLoss wm bot)
      | Some (true, wm) =>
          match sellSwaps env i with
          | Returned true => Some (setStopLoss wm bot)
          | Returned false | Thrown =>
              sellRetryLoop cfg env mint remaining' (S i) (setStopLoss wm bot)
          end
      end
  end.

(** The [try] block, lines 239-317: [Thrown] when an exception reaches the
    [catch] of line 318. The local [trade] is the object stored in
    [trades] under the mint, so a change of it is a change of that entry. *)
Definition sellTry (cfg : BotConfig) (env : SellEnv) (acct : RawAccount) (bot : Bot)
  : option (Outcome unit * Bot) :=
  match poolData env with
  | Thrown => Some (Thrown, bot)
  | Returned false => Some (Returned tt, bot)
  | Returned true =>
      if TokenAmount.isZero (TokenAmount.mk (amount acct)) then Some (Returned tt, bot)
      else
        match sellAccounts env with
        | Thrown => Some (Thrown, bot)
        | Returned _ =>
            let bot := setTrades (alter Trade.transitionStart (mint acct) (trades bot)) bot in
            match sellRetryLoop cfg env (mint acct) (BotConfig.maxSellRetries cfg) 0 bot with
            | Some bot' => Some (Returned tt, bot')
            | None => None
            end
        end
  end.

(** Lines 318-323. *)
Definition sellCatch (acct : RawAccount) (bot : Bot) : Bot :=
  match trades bot !! mint acct with
  | Some trade =>
      let trade := Trade.close 0 0 "sell_failed" trade in
      setBalance (balance bot + Trade.profit trade)%Q
                 (setTrades (<[mint acct := trade]> (trades bot)) bot)
  | None => bot
  end.

(** Lines 327-332. *)
Definition journalTrade (env : SellEnv) (acct : RawAccount) (bot : Bot) : Bot :=
  match trades bot !! mint acct with
  | Some trade =>
      let bot := setTradesCount (tradesCount bot + 1) bot in
      let bot :=
        if journalWritten env
        then setJournal (journal bot ++ [Trade.complete (balance bot) (tradesCount bot) trade]) bot
        else bot in
      setTrades (delete (mint acct) (trades bot)) bot
  | None => bot
  end.

(** Lines 324-335: a throw of [updateBalance] leaves the block at once. *)
Definition sellFinally (env : SellEnv) (acct : RawAccount) (bot : Bot)
  : Outcome unit * Bot :=
  match refreshedBalance env with
  | Thrown => (Thrown, bot)
  | Returned total =>
      (Returned tt, sellLeave (journalTrade env acct (setBalance total bot)))
  end.

(** Lines 230-336. *)
Definition sell (cfg : BotConfig) (env : SellEnv) (acct : RawAccount) (bot : Bot)
  : option (Outcome unit * Bot) :=
  match sellTry cfg env acct (sellEnter bot) with
  | None => None
  | Some (Returned _, bot') => Some (sellFinally env acct bot')
  | Some (Thrown, bot') => Some (sellFinally env acct (sellCatch acct bot'))
  end.

(** The permits that are out are exactly the permits held by buy tasks,
    and neither counter goes below zero. *)
Definition gateBalanced (cfg : BotConfig) (s : Bot * nat) : Prop :=
  semaphore s.1 = BotConfig.maxTokensAtTheTime cfg - Z.of_nat s.2
  /\ 0 <= semaphore s.1
  /\ 0 <= sellExecutionCount s.1.

(** The trade that [sell] hands to the journal, as the path through its
    [try] block leaves it: untouched on the two early returns, closed as
    [sell_failed] on a throw, started again when the retry loop is
    reached. *)
Definition journaledTrade (env : SellEnv) (acct : RawAccount) (trade : Trade) : Trade :=
  match poolData env with
  | Thrown => Trade.close 0 0 "sell_failed" trade
  | Returned false => trade
  | Returned true =>
      if amount acct =? 0 then trade
      else
        match sellAccounts env with
        | Thrown => Trade.close 0 0 "sell_failed" trade
        | Returned _ => Trade.transitionStart trade
        end
  end.

(** ** Rounds of a polling loop *)

(** The number of rounds a [do ... while (timesChecked < budget)] loop can
    run: one at least, and as many as it takes the counter to reach the
    budget. *)
Definition roundsToRun (budget : Q) : Z := Z.max 1 (Qceiling budget).

(** ** The swap transaction *)

(** The class of the transaction executor, which the constructor inspects
    for [isWarp] and [isJito] (lines 87-88). *)
Inductive ExecutorKind : Type :=
| DefaultExecutor
| WarpExecutor
| JitoExecutor.

Definition isWarp (executor : ExecutorKind) : bool :=
  match executor with WarpExecutor => true | _ => false end.

Definition isJito (executor : ExecutorKind) : bool :=
  match executor with JitoExecutor => true | _ => false end.

Inductive Direction : Type := DirectionBuy | DirectionSell.

(** The instructions [swap] puts in a transaction; those that the pool
    library returns in [innerTransaction.instructions] are kept opaque. *)
Inductive Instruction : Type :=
| SetComputeUnitPrice (microLamports : Z)
| SetComputeUnitLimit (units : Z)
| CreateAssociatedTokenAccountIdempotent (payer associatedToken owner tokenMint : string)
| PoolInstruction (data : string)
| CloseAccount (account destination authority : string).

(** Lines 405-424: the [instructions] of the transaction message. *)
Definition swapInstructions (executor : ExecutorKind) (unitPrice unitLimit : Z)
    (direction : Direction) (wallet ataIn ataOut tokenOutMint : string)
    (innerInstructions : list string) : list Instruction :=
  (if isWarp executor || isJito executor
   then []
   else [SetComputeUnitPrice unitPrice; SetComputeUnitLimit unitLimit])
  ++ (match direction with
      | DirectionBuy =>
          [CreateAssociatedTokenAccountIdempotent wallet ataOut wallet tokenOutMint]
      | DirectionSell => []
      end)
  ++ (PoolInstruction <$> innerInstructions)
  ++ (match direction with
      | DirectionSell => [CloseAccount ataIn wallet wallet]
      | DirectionBuy => []
      end).

Definition isPoolInstruction (i : Instruction) : option string :=
  match i with PoolInstruction data => Some data | _ => None end.

(** ** Trade bookkeeping after a swap *)



(** ** Start-up *)

(** The character of ['\n']. *)
Definition newline : Ascii.ascii := Ascii.ascii_of_nat 10.

(** [data.split('\n')]: the pieces between the newlines, one piece for a
    text without newline (the empty text included). *)
Fixpoint splitLines (data : string) : list string :=
  match data with
  | EmptyString => [EmptyString]
  | String c rest =>
      if Ascii.eqb c newline then EmptyString :: splitLines rest
      else
        match splitLines rest with
        | piece :: pieces => String c piece :: pieces
        | [] => [String c EmptyString]
        end
  end.

(** What [init] looks at in a value returned by [JSON.parse]: a falsy value
    (such as [null]), or a record with its [id], a sequence number. Values
    that are truthy and have no such [id] are outside this type. *)
Inductive Parsed : Type :=
| ParsedFalsy
| ParsedRecord (id : Z).

(** [lines.map((line) => JSON.parse(line))]: the first line that does not
    parse ends the mapping with its exception. *)
Fixpoint parseLines (parse : string -> Outcome Parsed) (lines : list string)
  : Outcome (list Parsed) :=
  match lines with
  | [] => Returned []
  | line :: rest =>
      match parse line with
      | Thrown => Thrown
      | Returned object =>
          match parseLines parse rest with
          | Thrown => Thrown
          | Returned objects => Returned (object :: objects)
          end
      end
  end.

(** What the calls of [init] answer. *)
Record InitEnv : Type := mkInitEnv {
  (** [updateBalance]: the wallet and quote account total, or a throw *)
  initBalance : Outcome Q;
  (** [fs.readFileSync(logFilename, { flag: 'a+' })] *)
  journalFile : Outcome string;
  (** [JSON.parse] *)
  parseLine : string -> Outcome Parsed
}.

(** Lines 106-107: the non-empty lines of the journal file. *)
Definition journalLines (data : string) : list string :=
  List.filter (fun line => (0 <? String.length line)%nat) (splitLines data).

(** Lines 99-113. *)
Definition init (env : InitEnv) (bot : Bot) : Outcome unit * Bot :=
  match initBalance env with
  | Thrown => (Thrown, bot)
  | Returned total =>
      let bot := setBalance total bot in
      match journalFile env with
      | Thrown => (Thrown, bot)
      | Returned data =>
          match parseLines (parseLine env) (journalLines data) with
          | Thrown => (Thrown, bot)
          | Returned objects =>
              match last objects with
              | Some (ParsedRecord id) => (Returned tt, setTradesCount id bot)
              | Some ParsedFalsy | None => (Returned tt, bot)
              end
          end
      end
  end.

(** The text of a file to which the given lines were appended one by one,
    each followed by a newline. *)
Fixpoint appendedLines (lines : list string) : string :=
  match lines with
  | [] => EmptyString
  | line :: rest => String.append line (String newline (appendedLines rest))
  end.

(** A line as a journal write produces it: not empty, and without a newline
    inside. *)
Fixpoint newlineFree (line : string) : bool :=
  match line with
  | EmptyString => true
  | String c rest => negb (Ascii.eqb c newline) && newlineFree rest
  end.

(** ** The range of the arithmetic *)

(** [MAX_SAFE] of the pool library, [0x1fffffffffffff]. *)
Definition MAX_SAFE : Z := 2 ^ 53 - 1.

(** A number that [parseBigNumberish] of the pool library turns into a
    [BN]: an integer strictly between [-MAX_SAFE] and [MAX_SAFE]. For any
    other number [mul] throws. *)
Definition acceptedNumber (n : Z) : Prop := - MAX_SAFE < n < MAX_SAFE.

(** The three percentages by which the exit-signal check multiplies an
    amount (lines 481, 487, 515 and 531) are accepted, so that none of its
    [mul] calls throws and [percentOf] is what the code computes. *)
Definition percentagesAccepted (cfg : BotConfig) : Prop :=
  acceptedNumber (BotConfig.takeProfit cfg)
  /\ acceptedNumber (BotConfig.stopLoss cfg)
  /\ acceptedNumber (BotConfig.skipSellingIfLostMoreThan cfg).

(** A duration and an interval for which the double [duration / interval]
    orders the round counter as the exact quotient does. Both are integers
    below [2^53] in size, hence doubles; a quotient of such integers that
    exceeds an integer [k] exceeds it by [1 / interval] at least, which is
    more than half the distance from [k] to the next double, so that the
    rounded quotient exceeds [k] too; rounding is monotone for the rest. *)
Definition timesExact (duration interval : Z) : Prop :=
  0 < interval < 2 ^ 53 /\ - 2 ^ 53 < duration < 2 ^ 53.

(** ** The thresholds in the words of the specification *)

(** The take-profit threshold as the specification words it,
    [entryAmount + entryAmount * takeProfitPct / 100], from the entry amount
    of the position that is monitored. *)
Definition specTakeProfit (entryAmount : TokenAmount) (cfg : BotConfig) : TokenAmount :=
  TokenAmount.mk (TokenAmount.raw entryAmount
                  + (TokenAmount.raw entryAmount * BotConfig.takeProfit cfg) ÷ 100).

(** The initial stop-loss as the specification words it,
    [entryAmount - entryAmount * stopLossPct / 100]. *)
Definition specStopLoss (entryAmount : TokenAmount) (cfg : BotConfig) : TokenAmount :=
  TokenAmount.mk (TokenAmount.raw entryAmount
                  - (TokenAmount.raw entryAmount * BotConfig.stopLoss cfg) ÷ 100).

(** The max-loss bound as the specification words it,
    [entryAmount * skipSellingIfLostMoreThan / 100], a rational number. *)
Definition specCutoffBound (entryAmount : TokenAmount) (cfg : BotConfig) : Q :=
  (inject_Z (TokenAmount.raw entryAmount)
   * inject_Z (BotConfig.skipSellingIfLostMoreThan cfg) / 100)%Q.

(** ** Sample configurations and inputs *)

(** A configuration with two permits, three attempts per pipeline, price
    checks every 1000 ms for 3000 ms (three rounds), filter checks every
    1000 ms for 2500 ms (three rounds) and two consecutive matches
    required; filters are in use (no snipe list). *)
Definition sampleConfig (quoteAmount takeProfit stopLoss : Z) (trailing : bool)
    (skipSellingIfLostMoreThan : Z) : BotConfig :=
  {| BotConfig.quoteAmount := TokenAmount.mk quoteAmount;
     BotConfig.maxTokensAtTheTime := 2;
     BotConfig.useSnipeList := false;
     BotConfig.maxBuyRetries := 3;
     BotConfig.maxSellRetries := 3;
     BotConfig.takeProfit := takeProfit;
     BotConfig.stopLoss := stopLoss;
     BotConfig.trailingStopLoss := trailing;
     BotConfig.skipSellingIfLostMoreThan := skipSellingIfLostMoreThan;
     BotConfig.priceCheckInterval := 1000;
     BotConfig.priceCheckDuration := 3000;
     BotConfig.filterCheckInterval := 1000;
     BotConfig.filterCheckDuration := 2500;
     BotConfig.consecutiveMatchCount := 2 |}.

(** An entry of 100 with six decimals, both percentages at 10, trailing
    stop on and the max-loss cutoff at 50 percent. *)
Definition thresholdConfig : BotConfig := sampleConfig 100000000 10 10 true 50.

(** Quotes that rise from 100 to 105 and then stay at 108. *)
Definition risingQuotes (k : nat) : option TokenAmount :=
  match k with
  | O => Some (TokenAmount.mk 100000000)
  | S O => Some (TokenAmount.mk 105000000)
  | _ => Some (TokenAmount.mk 108000000)
  end.

(** Take-profit far away at 50 percent, trailing stop on, no cutoff. *)
Definition trailingConfig : BotConfig := sampleConfig 100000000 50 10 true 0.

(** An entry of 100 raw units with the max-loss cutoff at 50 percent. *)
Definition cutoffConfig (trailing : bool) : BotConfig := sampleConfig 100 10 10 trailing 50.

(** An entry of 100 with six decimals, both percentages at 10, no cutoff. *)
Definition boundaryConfig (trailing : bool) : BotConfig :=
  sampleConfig 100000000 10 10 trailing 0.

(** A filter evaluator that throws in the first round and matches in every
    later one. *)
Definition throwsThenMatches (k : nat) : Outcome bool :=
  match k with
  | O => Thrown
  | S _ => Returned true
  end.

(** A filter evaluator that answers false in the first round and matches in
    every later one. *)
Definition failsThenMatches (k : nat) : Outcome bool :=
  match k with
  | O => Returned false
  | S _ => Returned true
  end.

(** A bot with no trade, no watermark, an empty journal and the given
    number of free permits. *)
Definition idleBot (permits : Z) : Bot := mkBot 0 0 ∅ permits 0 ∅ [].

(** Accounts resolve, the filters match in every round, no swap is ever
    confirmed. *)
Definition quietBuyEnv : BuyEnv :=
  mkBuyEnv true (Returned tt) (fun _ => Returned true) (fun _ => Returned false).

(** The same, except that resolving the accounts throws. *)
Definition brokenBuyEnv : BuyEnv :=
  mkBuyEnv true Thrown (fun _ => Returned true) (fun _ => Returned false).

(** The filter evaluator throws in the first round. *)
Definition throwingBuyEnv : BuyEnv :=
  mkBuyEnv true (Returned tt) throwsThenMatches (fun _ => Returned true).

(** A trade entered for 1 with a fee of 0.01. *)
Definition openTrade : Trade :=
  Trade.mk "mint" Trade.Started 1 (1 # 100) 0 0 "" 0 0 0.

(** The pool lookup throws; the balance refresh answers 7 and the journal
    write succeeds. *)
Definition failingSellEnv : SellEnv :=
  mkSellEnv Thrown (Returned tt) (fun _ _ => None) (fun _ => Returned false)
            (Returned 7%Q) true.

(** A bot that holds [openTrade], with balance 8 and four trades journaled
    so far. *)
Definition holdingBot : Bot := mkBot 8 4 {[ "mint" := openTrade ]} 1 0 ∅ [].

(** Quotes that rise above the take-profit only from the fourth round on. *)
Definition lateQuotes (k : nat) : option TokenAmount :=
  match k with
  | O | S O | S (S O) => Some (TokenAmount.mk 100000000)
  | _ => Some (TokenAmount.mk 200000000)
  end.

(** A bot with two permits, of which one is held, and one sell in
    progress. *)
Definition busyBot : Bot := mkBot 0 0 ∅ 1 1 ∅ [].

(** A bot with two free permits that still holds [openTrade] for the
    mint. *)
Definition staleBot : Bot := mkBot 8 4 {[ "mint" := openTrade ]} 2 0 ∅ [].

(** The second swap attempt throws, the third is confirmed. *)
Definition thirdTimeBuyEnv : BuyEnv :=
  mkBuyEnv true (Returned tt) (fun _ => Returned true)
           (fun k => match k with
                     | O => Returned false
                     | S O => Thrown
                     | _ => Returned true
                     end).

(** The pool data is there, the first quote is far below the cutoff. *)
Definition crashedSellEnv : SellEnv :=
  mkSellEnv (Returned true) (Returned tt) (fun _ _ => Some (TokenAmount.mk 1))
            (fun _ => Returned true) (Returned 7%Q) true.

(** No pool data, and the balance refresh throws. *)
Definition offlineSellEnv : SellEnv :=
  mkSellEnv (Returned false) (Returned tt) (fun _ _ => None) (fun _ => Returned false)
            Thrown true.

(** A parser for lines that hold nothing but a sequence number. *)
Definition parseSample (line : string) : Outcome Parsed :=
  if String.eqb line "one" then Returned (ParsedRecord 1)
  else if String.eqb line "two" then Returned (ParsedRecord 2)
  else Thrown.

(** A refreshed balance of 7 and a journal file with the given text. *)
Definition sampleInitEnv (data : string) : InitEnv :=
  mkInitEnv (Returned 7%Q) (Returned data) parseSample.

(** Quotes that stay at the entry amount, a swap that is confirmed at once. *)
Definition calmSellEnv : SellEnv :=
  mkSellEnv (Returned true) (Returned tt) (fun _ _ => Some (TokenAmount.mk 100000000))
            (fun _ => Returned true) (Returned 7%Q) true.

(** The entry amount of a position of 200, with six decimals, that is not
    the configured quote amount of 100: one bought under another
    configuration, which [sell] monitors all the same. *)
Definition foreignEntry : TokenAmount := TokenAmount.mk 200000000.

(** An entry of 105 raw units with the max-loss cutoff at 50 percent: the
    bound of the specification is 52.5, the truncated one 52. *)
Definition oddCutoffConfig : BotConfig := sampleConfig 105 10 10 false 50.

(** The pool lookup throws, and so does the balance refresh. *)
Definition unreachableSellEnv : SellEnv :=
  mkSellEnv Thrown (Returned tt) (fun _ _ => None) (fun _ => Returned false)
            Thrown true.

(** Price checks every 1000 ms for 3000 ms, filter checks switched off
    (interval and duration zero). *)
Definition filtersOffConfig : BotConfig :=
  {| BotConfig.quoteAmount := TokenAmount.mk 100000000;
     BotConfig.maxTokensAtTheTime := 2;
     BotConfig.useSnipeList := false;
     BotConfig.maxBuyRetries := 3;
     BotConfig.maxSellRetries := 3;
     BotConfig.takeProfit := 10;
     BotConfig.stopLoss := 10;
     BotConfig.trailingStopLoss := true;
     BotConfig.skipSellingIfLostMoreThan := 50;
     BotConfig.priceCheckInterval := 1000;
     BotConfig.priceCheckDuration := 3000;
     BotConfig.filterCheckInterval := 0;
     BotConfig.filterCheckDuration := 0;
     BotConfig.consecutiveMatchCount := 2 |}.

(** Filter checks every 1000 ms for 2500 ms, price checks switched off
    (interval and duration zero). *)
Definition pricesOffConfig : BotConfig :=
  {| BotConfig.quoteAmount := TokenAmount.mk 100000000;
     BotConfig.maxTokensAtTheTime := 2;
     BotConfig.useSnipeList := false;
     BotConfig.maxBuyRetries := 3;
     BotConfig.maxSellRetries := 3;
     BotConfig.takeProfit := 10;
     BotConfig.stopLoss := 10;
     BotConfig.trailingStopLoss := true;
     BotConfig.skipSellingIfLostMoreThan := 50;
     BotConfig.priceCheckInterval := 0;
     BotConfig.priceCheckDuration := 0;
     BotConfig.filterCheckInterval := 1000;
     BotConfig.filterCheckDuration := 2500;
     BotConfig.consecutiveMatchCount := 2 |}.

(** * Properties *)

(** ** Polling budgets *)

Lemma belowBudget_lt (k : nat) (budget : Q) :
  belowBudget k budget = true -> Z.of_nat k < Qceiling budget.
Proof.
  unfold belowBudget. intros H.
  apply negb_true_iff in H.
  rewrite Zlt_Qlt.
  apply Qlt_le_trans with budget; [| apply Qle_ceiling].
  apply Qnot_le_lt. intros Hle.
  apply Qle_bool_iff in Hle. congruence.
Qed.

(** A loop that is still below its budget after [k] rounds has fuel left
    when it started with [loopFuel]. *)
Lemma fuel_left (k fuel : nat) (budget : Q) :
  Qceiling budget <= Z.of_nat k + Z.of_nat (S fuel) ->
  belowBudget (S k) budget = true ->
  Qceiling budget <= Z.of_nat (S k) + Z.of_nat fuel /\ (0 < fuel)%nat.
Proof.
  intros Hfuel Hlt. apply belowBudget_lt in Hlt. lia.
Qed.

Lemma loopFuel_enough (budget : Q) :
  Qceiling budget <= Z.of_nat 0 + Z.of_nat (loopFuel budget) /\ (0 < loopFuel budget)%nat.
Proof. unfold loopFuel. lia. Qed.

(** ** One round of the exit-signal loop *)

Section PriceRound.

Variable cfg : BotConfig.
Variable mint : string.

Lemma trailingUpdate_spec (amountOut stopLoss : TokenAmount) (wm : Watermarks) :
  wm !! mint = Some stopLoss ->
  forall stopLoss' wm',
    trailingUpdate cfg mint amountOut stopLoss wm = (stopLoss', wm') ->
    wm' !! mint = Some stopLoss'
    /\ TokenAmount.raw stopLoss <= TokenAmount.raw stopLoss'
    /\ forall other, other ≠ mint -> wm' !! other = wm !! other.
Proof.
  intros Hwm s' wm'. unfold trailingUpdate.
  destruct (BotConfig.trailingStopLoss cfg).
  - destruct (TokenAmount.gt _ stopLoss) eqn:Hgt; intros [= <- <-].
    + split; [apply lookup_insert_eq |].
      split; [unfold TokenAmount.gt in Hgt; lia |].
      intros other Hne. by apply lookup_insert_ne.
    + split; [done |]. split; [lia | done].
  - intros [= <- <-]. split; [done |]. split; [lia | done].
Qed.

Lemma priceRound_next takeProfit quote stopLoss wm stopLoss' wm' :
  wm !! mint = Some stopLoss ->
  priceRound cfg mint takeProfit quote stopLoss wm = RoundNext stopLoss' wm' ->
  wm' !! mint = Some stopLoss'
  /\ TokenAmount.raw stopLoss <= TokenAmount.raw stopLoss'
  /\ forall other, other ≠ mint -> wm' !! other = wm !! other.
Proof.
  intros Hwm. unfold priceRound. destruct quote as [amountOut |].
  - destruct (trailingUpdate cfg mint amountOut stopLoss wm) as [s1 wm1] eqn:Ht.
    destruct (maxLossCutoff cfg amountOut); [done |].
    destruct (TokenAmount.lt amountOut s1); [done |].
    destruct (TokenAmount.gt amountOut takeProfit); [done |].
    intros [= <- <-]. by eapply trailingUpdate_spec.
  - intros [= <- <-]. split; [done |]. split; [lia | done].
Qed.

Lemma trailingUpdate_frame (amountOut stopLoss : TokenAmount) (wm : Watermarks) :
  forall other, other ≠ mint ->
    (trailingUpdate cfg mint amountOut stopLoss wm).2 !! other = wm !! other.
Proof.
  intros other Hne. unfold trailingUpdate.
  destruct (BotConfig.trailingStopLoss cfg); [| done].
  destruct (TokenAmount.gt _ stopLoss); [| done].
  simpl. by apply lookup_insert_ne.
Qed.

Lemma priceRound_break takeProfit quote stopLoss wm wm' :
  priceRound cfg mint takeProfit quote stopLoss wm = RoundBreak wm' ->
  wm' !! mint = None
  /\ forall other, other ≠ mint -> wm' !! other = wm !! other.
Proof.
  unfold priceRound. destruct quote as [amountOut |]; [| done].
  pose proof (trailingUpdate_frame amountOut stopLoss wm) as Hframe.
  destruct (trailingUpdate cfg mint amountOut stopLoss wm) as [s1 wm1].
  simpl in Hframe.
  assert (Hdel : delete mint wm1 !! mint = None
                 /\ forall other, other ≠ mint -> delete mint wm1 !! other = wm !! other).
  { split; [apply lookup_delete_eq |].
    intros other Hne. rewrite lookup_delete_ne by done. by apply Hframe. }
  destruct (maxLossCutoff cfg amountOut); [done |].
  destruct (TokenAmount.lt amountOut s1).
  - by intros [= <-].
  - destruct (TokenAmount.gt amountOut takeProfit); [| done].
    by intros [= <-].
Qed.

Lemma priceRound_return takeProfit quote stopLoss wm result wm' :
  priceRound cfg mint takeProfit quote stopLoss wm = RoundReturn result wm' ->
  result = false /\ wm' !! mint = None
  /\ forall other, other ≠ mint -> wm' !! other = wm !! other.
Proof.
  unfold priceRound. destruct quote as [amountOut |]; [| done].
  pose proof (trailingUpdate_frame amountOut stopLoss wm) as Hframe.
  destruct (trailingUpdate cfg mint amountOut stopLoss wm) as [s1 wm1].
  simpl in Hframe.
  destruct (maxLossCutoff cfg amountOut).
  - intros [= <- <-]. split; [done |]. split; [apply lookup_delete_eq |].
    intros other Hne. rewrite lookup_delete_ne by done. by apply Hframe.
  - destruct (TokenAmount.lt amountOut s1); [done |].
    destruct (TokenAmount.gt amountOut takeProfit); done.
Qed.

End PriceRound.

(** ** The exit-signal loop as a whole *)

Section PriceLoop.

Variable cfg : BotConfig.
Variable mint : string.
Variable quotes : nat -> option TokenAmount.
Variable takeProfit : TokenAmount.

Let budget : Q := priceBudget cfg.

(** The loop returns: fuel that covers the budget is never used up. *)
Lemma priceLoop_total (fuel : nat) :
  forall k stopLoss wm,
    Qceiling budget <= Z.of_nat k + Z.of_nat fuel -> (0 < fuel)%nat ->
    exists r, priceLoop cfg mint quotes takeProfit fuel k stopLoss wm = Some r.
Proof.
  induction fuel as [| fuel IH]; intros k s wm Hfuel Hpos; [lia |].
  simpl.
  destruct (priceRound cfg mint takeProfit (quotes k) s wm) as [b wm1 | wm1 | s1 wm1];
    [by eexists | by eexists |].
  destruct (belowBudget (S k) (priceBudget cfg)) eqn:Hb; [| by eexists].
  destruct (fuel_left k fuel budget Hfuel Hb) as [Hfuel' Hpos'].
  by apply IH.
Qed.

(** What the way out of the loop says about the watermark of the mint,
    and that no other watermark is touched. *)
Lemma priceLoop_exit (fuel : nat) :
  forall k stopLoss wm e wm',
    wm !! mint = Some stopLoss ->
    priceLoop cfg mint quotes takeProfit fuel k stopLoss wm = Some (e, wm') ->
    match e with
    | ExitBudget =>
        exists stored, wm' !! mint = Some stored
                       /\ TokenAmount.raw stopLoss <= TokenAmount.raw stored
    | ExitBreak => wm' !! mint = None
    | ExitReturn result => result = false /\ wm' !! mint = None
    end
    /\ forall other, other ≠ mint -> wm' !! other = wm !! other.
Proof.
  induction fuel as [| fuel IH]; intros k s wm e wm' Hwm; [done |].
  simpl.
  destruct (priceRound cfg mint takeProfit (quotes k) s wm)
    as [b wm1 | wm1 | s1 wm1] eqn:Hround.
  - intros [= <- <-]. apply priceRound_return in Hround as (? & ? & ?). by repeat split.
  - intros [= <- <-]. by apply priceRound_break in Hround as (? & ?).
  - apply priceRound_next in Hround as (Hwm1 & Hle & Hframe); [| done].
    destruct (belowBudget (S k) (priceBudget cfg)).
    + intros Hloop. destruct (IH _ _ _ _ _ Hwm1 Hloop) as [He Hframe'].
      split.
      * destruct e; [done | done |].
        destruct He as (stored & Hs & Hle'). exists stored. split; [done | lia].
      * intros other Hne. rewrite Hframe' by done. by apply Hframe.
    + intros [= <- <-]. split; [| done]. exists s1. split; [done | lia].
Qed.

(** Rounds that are reached keep the watermark of the mint equal to the
    local [stopLoss], and never lower it. *)
Lemma roundState_watermark (n : nat) :
  forall k stopLoss wm stopLoss' wm',
    wm !! mint = Some stopLoss ->
    roundState cfg mint quotes takeProfit n k stopLoss wm = Some (stopLoss', wm') ->
    wm' !! mint = Some stopLoss'
    /\ TokenAmount.raw stopLoss <= TokenAmount.raw stopLoss'.
Proof.
  induction n as [| n IH]; intros k s wm s' wm' Hwm; simpl.
  - intros [= <- <-]. split; [done | lia].
  - destruct (priceRound cfg mint takeProfit (quotes k) s wm)
      as [b wm1 | wm1 | s1 wm1] eqn:Hround; [done | done |].
    apply priceRound_next in Hround as (Hwm1 & Hle & _); [| done].
    destruct (belowBudget (S k) (priceBudget cfg)); [| done].
    intros Hst. destruct (IH _ _ _ _ _ Hwm1 Hst) as [? ?]. split; [done | lia].
Qed.

(** The state at round [i + d] is reached through the state at round [i]. *)
Lemma roundState_split (i d : nat) :
  forall k stopLoss wm x,
    roundState cfg mint quotes takeProfit (i + d) k stopLoss wm = Some x ->
    exists si wmi,
      roundState cfg mint quotes takeProfit i k stopLoss wm = Some (si, wmi)
      /\ roundState cfg mint quotes takeProfit d (k + i) si wmi = Some x.
Proof.
  induction i as [| i IH]; intros k s wm x; simpl.
  - intros Hst. exists s, wm. by rewrite Nat.add_0_r.
  - destruct (priceRound cfg mint takeProfit (quotes k) s wm)
      as [b wm1 | wm1 | s1 wm1]; [done | done |].
    destruct (belowBudget (S k) (priceBudget cfg)); [| done].
    intros Hst. destruct (IH _ _ _ _ Hst) as (si & wmi & Hi & Hd).
    exists si, wmi. split; [done |]. by rewrite Nat.add_succ_r.
Qed.

(** The state at round [n + 1] comes from round [n] by a pass that
    reaches the end of the loop body. *)
Lemma roundState_succ (n : nat) k stopLoss wm stopLoss' wm' :
  roundState cfg mint quotes takeProfit (S n) k stopLoss wm = Some (stopLoss', wm') ->
  exists sn wmn,
    roundState cfg mint quotes takeProfit n k stopLoss wm = Some (sn, wmn)
    /\ priceRound cfg mint takeProfit (quotes (k + n)%nat) sn wmn
       = RoundNext stopLoss' wm'.
Proof.
  replace (S n) with (n + 1)%nat by lia. intros Hst.
  destruct (roundState_split _ _ _ _ _ _ Hst) as (sn & wmn & Hn & H1).
  exists sn, wmn. split; [done |]. simpl in H1.
  destruct (priceRound cfg mint takeProfit (quotes (k + n)%nat) sn wmn)
    as [b wm1 | wm1 | s1 wm1]; [done | done |].
  destruct (belowBudget (S (k + n)) (priceBudget cfg)); [| done].
  by injection H1 as <- <-.
Qed.

(** A loop whose round [n] is reached continues from that round. *)
Lemma priceLoop_from_round (n : nat) :
  forall fuel k stopLoss wm stopLoss' wm',
    roundState cfg mint quotes takeProfit n k stopLoss wm = Some (stopLoss', wm') ->
    Qceiling budget <= Z.of_nat k + Z.of_nat fuel -> (0 < fuel)%nat ->
    exists fuel',
      priceLoop cfg mint quotes takeProfit fuel k stopLoss wm
      = priceLoop cfg mint quotes takeProfit fuel' (k + n) stopLoss' wm'
      /\ (0 < fuel')%nat.
Proof.
  induction n as [| n IH]; intros fuel k s wm s' wm'; simpl.
  - intros [= <- <-] _ Hpos. exists fuel. by rewrite Nat.add_0_r.
  - intros Hst Hfuel Hpos. destruct fuel as [| fuel]; [lia |]. simpl.
    destruct (priceRound cfg mint takeProfit (quotes k) s wm)
      as [b wm1 | wm1 | s1 wm1]; [done | done |].
    destruct (belowBudget (S k) (priceBudget cfg)) eqn:Hb; [| done].
    destruct (fuel_left k fuel budget Hfuel Hb) as [Hfuel' Hpos'].
    destruct (IH _ _ _ _ _ _ Hst Hfuel' Hpos') as (fuel' & Heq & Hpos'').
    exists fuel'. rewrite Nat.add_succ_r. by split.
Qed.

(** When every round that is reached runs to the end of the loop body,
    the loop ends by its condition. *)
Lemma priceLoop_budget (fuel : nat) :
  forall k stopLoss wm,
    (forall n sn wmn,
        roundState cfg mint quotes takeProfit n k stopLoss wm = Some (sn, wmn) ->
        exists s' wm',
          priceRound cfg mint takeProfit (quotes (k + n)%nat) sn wmn = RoundNext s' wm') ->
    Qceiling budget <= Z.of_nat k + Z.of_nat fuel -> (0 < fuel)%nat ->
    exists wm', priceLoop cfg mint quotes takeProfit fuel k stopLoss wm
                = Some (ExitBudget, wm').
Proof.
  induction fuel as [| fuel IH]; intros k s wm Hall Hfuel Hpos; [lia |].
  simpl.
  destruct (Hall O s wm eq_refl) as (s1 & wm1 & Hround).
  rewrite Nat.add_0_r in Hround. rewrite Hround.
  destruct (belowBudget (S k) (priceBudget cfg)) eqn:Hb; [| by eexists].
  destruct (fuel_left k fuel budget Hfuel Hb) as [Hfuel' Hpos'].
  apply IH; [| done | done].
  intros n sn wmn Hst. replace (S k + n)%nat with (k + S n)%nat by lia.
  apply Hall. simpl. by rewrite Hround, Hb.
Qed.

End PriceLoop.

(** ** The thresholds of one call *)

Lemma initStopLoss_stored (cfg : BotConfig) (mint : string) (wm : Watermarks) :
  (initStopLoss cfg mint wm).2 !! mint = Some (initStopLoss cfg mint wm).1
  /\ forall other, other ≠ mint -> (initStopLoss cfg mint wm).2 !! other = wm !! other.
Proof.
  unfold initStopLoss. destruct (wm !! mint) eqn:Hwm; simpl.
  - done.
  - split; [apply lookup_insert_eq |]. intros other Hne. by apply lookup_insert_ne.
Qed.

(** The exit-signal check returns whatever the quotes are. *)
Lemma waitForSellSignal_total (cfg : BotConfig) (mint : string)
    (quotes : nat -> option TokenAmount) (wm : Watermarks) :
  exists r, waitForSellSignal cfg mint quotes wm = Some r.
Proof.
  unfold waitForSellSignal. destruct (priceCheckDisabled cfg); [by eexists |].
  unfold sellSignalLoop. destruct (initStopLoss cfg mint wm) as [s wm0].
  destruct (loopFuel_enough (priceBudget cfg)) as [Hfuel Hpos].
  destruct (priceLoop_total cfg mint quotes (takeProfitThreshold cfg) _ 0%nat s wm0 Hfuel Hpos)
    as [[e wm'] ->].
  by eexists.
Qed.

(** C1, as amended. A call of the exit-signal check with nonzero
    price-check interval and duration, and with percentages that the amount
    arithmetic accepts, runs its loop with the take-profit threshold
    [q + q * takeProfitPct / 100] and, when the mint has no stop-loss
    watermark, with the stop-loss [q - q * stopLossPct / 100], which it
    stores; when the mint has a watermark, the loop starts from that
    watermark and the map is not changed. Here [q] is the configured quote
    amount [config.quoteAmount], whatever the position that is monitored
    was entered with, and the division is the truncating division of
    [BN]. *)
Theorem exit_thresholds (cfg : BotConfig) (mint : string)
    (quotes : nat -> option TokenAmount) (wm : Watermarks) :
  priceCheckDisabled cfg = false ->
  percentagesAccepted cfg ->
  let entry := TokenAmount.raw (BotConfig.quoteAmount cfg) in
  let takeProfit := TokenAmount.mk (entry + (entry * BotConfig.takeProfit cfg) ÷ 100) in
  let fresh := TokenAmount.mk (entry - (entry * BotConfig.stopLoss cfg) ÷ 100) in
  let stopLoss := match wm !! mint with Some stored => stored | None => fresh end in
  let wm0 := match wm !! mint with Some _ => wm | None => <[mint := fresh]> wm end in
  waitForSellSignal cfg mint quotes wm
  = match priceLoop cfg mint quotes takeProfit (loopFuel (priceBudget cfg)) 0 stopLoss wm0 with
    | Some (e, wm') => Some (exitValue e, wm')
    | None => None
    end
  /\ sellSignalState cfg mint quotes wm 0 = Some (stopLoss, wm0)
  /\ wm0 !! mint = Some stopLoss
  /\ takeProfit = specTakeProfit (BotConfig.quoteAmount cfg) cfg
  /\ fresh = specStopLoss (BotConfig.quoteAmount cfg) cfg.
Proof.
  intros Hon _. simpl.
  unfold waitForSellSignal, sellSignalLoop, sellSignalState, initStopLoss.
  rewrite Hon.
  unfold takeProfitThreshold, percentOf, TokenAmount.add, TokenAmount.subtract,
    TokenAmount.mul_numerator, BN_div. simpl.
  destruct (wm !! mint) as [stored |] eqn:Hwm; simpl.
  - done.
  - split; [done |]. split; [done |]. split; [apply lookup_insert_eq | done].
Qed.

Lemma percentagesAccepted_sample (quoteAmount : Z) (trailing : bool) (skip : Z) :
  acceptedNumber skip -> percentagesAccepted (sampleConfig quoteAmount 10 10 trailing skip).
Proof.
  intros Hskip. unfold percentagesAccepted, acceptedNumber, MAX_SAFE in *.
  cbn. lia.
Qed.

Lemma exit_thresholds_witness :
  waitForSellSignal thresholdConfig "mint" (fun _ => Some (TokenAmount.mk 100000000)) ∅
  = Some (true, {[ "mint" := TokenAmount.mk 90000000 ]}).
Proof.
  etransitivity.
  - apply (exit_thresholds thresholdConfig "mint"
             (fun _ => Some (TokenAmount.mk 100000000)) ∅).
    + reflexivity.
    + unfold percentagesAccepted, acceptedNumber, MAX_SAFE. cbn. lia.
  - vm_compute. reflexivity.
Defined.

(** C1, counterexample. For a position entered with 200 and monitored under
    a configured quote amount of 100, the thresholds of the call are 110 and
    90, not the 220 and 180 that the entry amount of the position gives: a
    quote that stays at the entry amount, which is between 180 and 220, is
    above the take-profit of the call, and the check answers that the
    position is to be sold. *)
Lemma exit_thresholds_counterexample :
  takeProfitThreshold thresholdConfig <> specTakeProfit foreignEntry thresholdConfig
  /\ (initStopLoss thresholdConfig "mint" ∅).1 <> specStopLoss foreignEntry thresholdConfig
  /\ TokenAmount.lt foreignEntry (specStopLoss foreignEntry thresholdConfig) = false
  /\ TokenAmount.gt foreignEntry (specTakeProfit foreignEntry thresholdConfig) = false
  /\ TokenAmount.gt foreignEntry (takeProfitThreshold thresholdConfig) = true
  /\ waitForSellSignal thresholdConfig "mint" (fun _ => Some foreignEntry) ∅
     = Some (true, ∅).
Proof.
  split; [vm_compute; discriminate |].
  split; [vm_compute; discriminate |].
  repeat split; vm_compute; reflexivity.
Qed.

(** C10. When the exit-signal loop ends because its round budget is used up,
    the check returns true and the watermark of the mint is still in the
    map; when it ends by a trigger ([break]) or by the max-loss abort
    ([return false]) the watermark is gone. No other watermark changes. *)
Theorem budget_exit_keeps_watermark (cfg : BotConfig) (mint : string)
    (quotes : nat -> option TokenAmount) (wm : Watermarks) (e : LoopExit)
    (wm' : Watermarks) :
  priceCheckDisabled cfg = false ->
  sellSignalLoop cfg mint quotes wm = Some (e, wm') ->
  waitForSellSignal cfg mint quotes wm = Some (exitValue e, wm')
  /\ match e with
     | ExitBudget => exitValue e = true /\ is_Some (wm' !! mint)
     | ExitBreak => exitValue e = true /\ wm' !! mint = None
     | ExitReturn result => result = false /\ wm' !! mint = None
     end
  /\ forall other, other ≠ mint -> wm' !! other = wm !! other.
Proof.
  intros Hon Hloop. unfold waitForSellSignal. rewrite Hon, Hloop.
  split; [done |].
  unfold sellSignalLoop in Hloop.
  destruct (initStopLoss_stored cfg mint wm) as [Hstored Hframe0].
  destruct (initStopLoss cfg mint wm) as [s wm0]. cbn [fst snd] in Hstored, Hframe0.
  destruct (priceLoop_exit _ _ _ _ _ _ _ _ _ _ Hstored Hloop) as [He Hframe].
  split.
  - destruct e; [done | done |]. destruct He as (stored & -> & _). by split.
  - intros other Hne. rewrite Hframe by done. by apply Hframe0.
Qed.

Lemma budget_exit_keeps_watermark_witness :
  waitForSellSignal thresholdConfig "mint" (fun _ => None) ∅
  = Some (true, {[ "mint" := TokenAmount.mk 90000000 ]})
  /\ is_Some (({[ "mint" := TokenAmount.mk 90000000 ]} : Watermarks) !! "mint").
Proof.
  pose proof (budget_exit_keeps_watermark thresholdConfig "mint" (fun _ => None) ∅
                ExitBudget {[ "mint" := TokenAmount.mk 90000000 ]}
                ltac:(reflexivity) ltac:(vm_compute; reflexivity)) as (H1 & H2 & _).
  split; [exact H1 | exact (proj2 H2)].
Defined.

(** ** A round with a quote *)

Lemma delete_trailingUpdate (cfg : BotConfig) (mint : string)
    (amountOut stopLoss : TokenAmount) (wm : Watermarks) :
  delete mint (trailingUpdate cfg mint amountOut stopLoss wm).2 = delete mint wm.
Proof.
  unfold trailingUpdate. destruct (BotConfig.trailingStopLoss cfg); [| done].
  destruct (TokenAmount.gt _ stopLoss); [| done].
  simpl. apply delete_insert_eq.
Qed.

(** The three checks of a round, in the order of the loop body. *)
Lemma priceRound_quote (cfg : BotConfig) (mint : string)
    (takeProfit amountOut stopLoss : TokenAmount) (wm : Watermarks) :
  priceRound cfg mint takeProfit (Some amountOut) stopLoss wm
  = let updated := trailingUpdate cfg mint amountOut stopLoss wm in
    if maxLossCutoff cfg amountOut then RoundReturn false (delete mint wm)
    else if (TokenAmount.raw amountOut <? TokenAmount.raw updated.1)
            || (TokenAmount.raw takeProfit <? TokenAmount.raw amountOut)
         then RoundBreak (delete mint wm)
         else RoundNext updated.1 updated.2.
Proof.
  unfold priceRound. cbv zeta.
  pose proof (delete_trailingUpdate cfg mint amountOut stopLoss wm) as Hdel.
  destruct (trailingUpdate cfg mint amountOut stopLoss wm) as [s1 wm1].
  cbn [fst snd] in *. rewrite Hdel.
  unfold TokenAmount.lt, TokenAmount.gt.
  destruct (maxLossCutoff cfg amountOut); [done |].
  destruct (TokenAmount.raw amountOut <? TokenAmount.raw s1); [done |].
  by destruct (TokenAmount.raw takeProfit <? TokenAmount.raw amountOut).
Qed.

(** A call whose round [n] is reached is decided by the loop run from that
    round. *)
Lemma sellSignalLoop_from_round (cfg : BotConfig) (mint : string)
    (quotes : nat -> option TokenAmount) (wm : Watermarks) (n : nat)
    (stopLoss : TokenAmount) (wmn : Watermarks) :
  sellSignalState cfg mint quotes wm n = Some (stopLoss, wmn) ->
  exists fuel,
    sellSignalLoop cfg mint quotes wm
    = priceLoop cfg mint quotes (takeProfitThreshold cfg) (S fuel) n stopLoss wmn.
Proof.
  unfold sellSignalState, sellSignalLoop.
  destruct (initStopLoss cfg mint wm) as [s wm0]. intros Hst.
  destruct (loopFuel_enough (priceBudget cfg)) as [Hfuel Hpos].
  destruct (priceLoop_from_round _ _ _ _ _ _ _ _ _ _ _ Hst Hfuel Hpos)
    as (fuel' & Heq & Hpos').
  destruct fuel' as [| fuel']; [lia |]. by exists fuel'.
Qed.

(** ** Trailing stop *)

(** The state at round [n + 1] in terms of the pass through round [n]. *)
Lemma roundState_step (cfg : BotConfig) (mint : string)
    (quotes : nat -> option TokenAmount) (takeProfit : TokenAmount) (n : nat) :
  forall k stopLoss wm,
    roundState cfg mint quotes takeProfit (S n) k stopLoss wm
    = match roundState cfg mint quotes takeProfit n k stopLoss wm with
      | Some (sn, wmn) =>
          match priceRound cfg mint takeProfit (quotes (k + n)%nat) sn wmn with
          | RoundNext stopLoss' wm' =>
              if belowBudget (S (k + n)) (priceBudget cfg)
              then Some (stopLoss', wm') else None
          | _ => None
          end
      | None => None
      end.
Proof.
  induction n as [| n IH]; intros k s wm.
  - cbn [roundState]. rewrite Nat.add_0_r.
    destruct (priceRound cfg mint takeProfit (quotes k) s wm) as [b wm1 | wm1 | s1 wm1];
      [done | done |].
    by destruct (belowBudget (S k) (priceBudget cfg)).
  - change (roundState cfg mint quotes takeProfit (S (S n)) k s wm)
      with (match priceRound cfg mint takeProfit (quotes k) s wm with
            | RoundNext s1 wm1 =>
                if belowBudget (S k) (priceBudget cfg)
                then roundState cfg mint quotes takeProfit (S n) (S k) s1 wm1
                else None
            | _ => None
            end).
    change (roundState cfg mint quotes takeProfit (S n) k s wm)
      with (match priceRound cfg mint takeProfit (quotes k) s wm with
            | RoundNext s1 wm1 =>
                if belowBudget (S k) (priceBudget cfg)
                then roundState cfg mint quotes takeProfit n (S k) s1 wm1
                else None
            | _ => None
            end).
    destruct (priceRound cfg mint takeProfit (quotes k) s wm) as [b wm1 | wm1 | s1 wm1];
      [done | done |].
    destruct (belowBudget (S k) (priceBudget cfg)); [| done].
    rewrite IH. by replace (S k + n)%nat with (k + S n)%nat by lia.
Qed.

(** C8. With trailing stop enabled, across the rounds of one exit-signal
    check the watermark stored for the mint never decreases. At every round
    that is reached it equals the local stop-loss, and the value at a later
    round is at least the value at an earlier one. In every round that is
    reached, the last one included, a quoted amount replaces the stored
    value by the candidate floor [amount - amount * stopLossPct / 100]
    exactly when the candidate is strictly greater, and the round then goes
    on with that value unless it aborts or triggers, which deletes the
    entry. The map that the check returns has no entry for the mint or one
    that is at least the value of every round that was reached; after a last
    round that runs to the end of its body it is the map that this round
    left, for percentages that the amount arithmetic accepts and a duration
    and an interval whose quotient is compared exactly. *)
Theorem trailing_watermark_monotone (cfg : BotConfig) (mint : string)
    (quotes : nat -> option TokenAmount) (wm : Watermarks) (i j : nat)
    (si sj : TokenAmount) (wmi wmj : Watermarks) :
  BotConfig.trailingStopLoss cfg = true ->
  (i <= j)%nat ->
  sellSignalState cfg mint quotes wm i = Some (si, wmi) ->
  sellSignalState cfg mint quotes wm j = Some (sj, wmj) ->
  wmi !! mint = Some si
  /\ wmj !! mint = Some sj
  /\ TokenAmount.raw si <= TokenAmount.raw sj
  /\ (forall amountOut stopLoss' wm',
      quotes i = Some amountOut ->
      sellSignalState cfg mint quotes wm (S i) = Some (stopLoss', wm') ->
      let candidate :=
        TokenAmount.raw amountOut
        - (TokenAmount.raw amountOut * BotConfig.stopLoss cfg) ÷ 100 in
      if TokenAmount.raw si <? candidate
      then stopLoss' = TokenAmount.mk candidate /\ wm' = <[mint := stopLoss']> wmi
      else stopLoss' = si /\ wm' = wmi)
  /\ (forall amountOut,
      quotes j = Some amountOut ->
      let candidate :=
        TokenAmount.raw amountOut
        - (TokenAmount.raw amountOut * BotConfig.stopLoss cfg) ÷ 100 in
      let raised :=
        if TokenAmount.raw sj <? candidate then TokenAmount.mk candidate else sj in
      let wmRaised :=
        if TokenAmount.raw sj <? candidate then <[mint := raised]> wmj else wmj in
      trailingUpdate cfg mint amountOut sj wmj = (raised, wmRaised)
      /\ wmRaised !! mint = Some raised
      /\ TokenAmount.raw sj <= TokenAmount.raw raised
      /\ priceRound cfg mint (takeProfitThreshold cfg) (quotes j) sj wmj
         = if maxLossCutoff cfg amountOut then RoundReturn false (delete mint wmj)
           else if (TokenAmount.raw amountOut <? TokenAmount.raw raised)
                   || (TokenAmount.raw (takeProfitThreshold cfg)
                       <? TokenAmount.raw amountOut)
                then RoundBreak (delete mint wmj)
                else RoundNext raised wmRaised)
  /\ (priceCheckDisabled cfg = false ->
      forall result wm',
        waitForSellSignal cfg mint quotes wm = Some (result, wm') ->
        wm' !! mint = None
        \/ exists stored, wm' !! mint = Some stored
                          /\ TokenAmount.raw sj <= TokenAmount.raw stored)
  /\ (priceCheckDisabled cfg = false ->
      percentagesAccepted cfg ->
      timesExact (BotConfig.priceCheckDuration cfg) (BotConfig.priceCheckInterval cfg) ->
      forall stopLoss' wm',
        priceRound cfg mint (takeProfitThreshold cfg) (quotes j) sj wmj
        = RoundNext stopLoss' wm' ->
        sellSignalState cfg mint quotes wm (S j) = None ->
        waitForSellSignal cfg mint quotes wm = Some (true, wm')
        /\ wm' !! mint = Some stopLoss'
        /\ TokenAmount.raw sj <= TokenAmount.raw stopLoss').
Proof.
  intros Htrail Hij Hi Hj.
  assert (Hinv : wmi !! mint = Some si /\ wmj !! mint = Some sj
                 /\ TokenAmount.raw si <= TokenAmount.raw sj).
  { unfold sellSignalState in Hi, Hj.
    destruct (initStopLoss_stored cfg mint wm) as [Hstored _].
    destruct (initStopLoss cfg mint wm) as [s wm0]. cbn [fst snd] in Hstored.
    replace j with (i + (j - i))%nat in Hj by lia.
    destruct (roundState_split _ _ _ _ _ _ _ _ _ _ Hj) as (si' & wmi' & Hi' & Hd).
    rewrite Hi in Hi'. injection Hi' as <- <-.
    destruct (roundState_watermark _ _ _ _ _ _ _ _ _ _ Hstored Hi) as [Hwmi _].
    destruct (roundState_watermark _ _ _ _ _ _ _ _ _ _ Hwmi Hd) as [Hwmj Hle].
    done. }
  destruct Hinv as (Hwmi & Hwmj & Hle).
  assert (Hrule : forall (s : TokenAmount) (wms : Watermarks) (a : TokenAmount),
    trailingUpdate cfg mint a s wms
    = (if TokenAmount.raw s
          <? TokenAmount.raw a - (TokenAmount.raw a * BotConfig.stopLoss cfg) ÷ 100
       then TokenAmount.mk
              (TokenAmount.raw a - (TokenAmount.raw a * BotConfig.stopLoss cfg) ÷ 100)
       else s,
       if TokenAmount.raw s
          <? TokenAmount.raw a - (TokenAmount.raw a * BotConfig.stopLoss cfg) ÷ 100
       then <[mint := TokenAmount.mk
                        (TokenAmount.raw a
                         - (TokenAmount.raw a * BotConfig.stopLoss cfg) ÷ 100)]> wms
       else wms)).
  { intros s wms a. unfold trailingUpdate. rewrite Htrail.
    unfold TokenAmount.gt, TokenAmount.subtract, percentOf, TokenAmount.mul_numerator,
      BN_div. cbn [TokenAmount.raw].
    by destruct (TokenAmount.raw s <? _). }
  split; [done |]. split; [done |]. split; [done |]. split; [| split; [| split]].
  - intros a s' wm' Hq Hnext. cbv zeta.
    unfold sellSignalState in Hi, Hnext.
    destruct (initStopLoss cfg mint wm) as [s wm0].
    rewrite roundState_step, Hi in Hnext. cbn [Nat.add] in Hnext.
    rewrite Hq, priceRound_quote in Hnext. cbv zeta in Hnext.
    rewrite Hrule in Hnext. cbn [fst snd] in Hnext.
    destruct (TokenAmount.raw si <? _) eqn:Hgt;
      repeat case_match; simplify_eq; done.
  - intros a Hq. cbv zeta. rewrite Hq, priceRound_quote. cbv zeta.
    rewrite Hrule. cbn [fst snd].
    destruct (Z.ltb_spec (TokenAmount.raw sj)
                (TokenAmount.raw a - (TokenAmount.raw a * BotConfig.stopLoss cfg) ÷ 100));
      cbn [TokenAmount.raw].
    + split; [done |]. split; [apply lookup_insert_eq |]. split; [lia | done].
    + split; [done |]. split; [done |]. split; [lia | done].
  - intros Hon result wm' Hcall.
    unfold waitForSellSignal in Hcall. rewrite Hon in Hcall.
    destruct (sellSignalLoop_from_round _ _ _ _ _ _ _ Hj) as [fuel Hfrom].
    rewrite Hfrom in Hcall.
    destruct (priceLoop cfg mint quotes (takeProfitThreshold cfg) (S fuel) j sj wmj)
      as [[e wm1] |] eqn:Hloop; [| done].
    injection Hcall as _ <-.
    destruct (priceLoop_exit _ _ _ _ _ _ _ _ _ _ Hwmj Hloop) as [He _].
    destruct e as [b | |]; [left; by destruct He | by left | by right].
  - intros Hon _ _ s' wm' Hround Hnone.
    assert (Hend : belowBudget (S j) (priceBudget cfg) = false).
    { unfold sellSignalState in Hj, Hnone.
      destruct (initStopLoss cfg mint wm) as [s wm0].
      rewrite roundState_step, Hj in Hnone. cbn [Nat.add] in Hnone.
      rewrite Hround in Hnone.
      by destruct (belowBudget (S j) (priceBudget cfg)). }
    destruct (priceRound_next _ _ _ _ _ _ _ _ Hwmj Hround) as (Hwm' & Hle' & _).
    split; [| done].
    unfold waitForSellSignal. rewrite Hon.
    destruct (sellSignalLoop_from_round _ _ _ _ _ _ _ Hj) as [fuel ->].
    cbn [priceLoop]. by rewrite Hround, Hend.
Qed.

Lemma trailing_watermark_monotone_witness :
  waitForSellSignal trailingConfig "mint" risingQuotes ∅
  = Some (true, {[ "mint" := TokenAmount.mk 97200000 ]})
  /\ ({[ "mint" := TokenAmount.mk 97200000 ]} : Watermarks) !! "mint"
     = Some (TokenAmount.mk 97200000)
  /\ TokenAmount.raw (TokenAmount.mk 94500000) <= TokenAmount.raw (TokenAmount.mk 97200000).
Proof.
  refine (proj2 (proj2 (proj2 (proj2 (proj2 (proj2
    (trailing_watermark_monotone trailingConfig "mint" risingQuotes ∅ 1 2
       (TokenAmount.mk 90000000) (TokenAmount.mk 94500000)
       {[ "mint" := TokenAmount.mk 90000000 ]}
       {[ "mint" := TokenAmount.mk 94500000 ]} _ _ _ _)))))) _ _ _
    (TokenAmount.mk 97200000) {[ "mint" := TokenAmount.mk 97200000 ]} _ _).
  - reflexivity.
  - lia.
  - vm_compute. reflexivity.
  - vm_compute. reflexivity.
  - reflexivity.
  - unfold percentagesAccepted, acceptedNumber, MAX_SAFE. cbn. lia.
  - unfold timesExact. cbn. lia.
  - vm_compute. reflexivity.
  - vm_compute. reflexivity.
Defined.

(** ** The max-loss cutoff *)

(** C7, as amended. With [skipSellingIfLostMoreThan > 0] and percentages
    that the amount arithmetic accepts, a quote of a round that is reached
    and that is strictly below [(q * skipSellingIfLostMoreThan) / 100], the
    product taken in raw units and the division truncating, makes the
    exit-signal check delete the watermark of the mint and return false.
    Here [q] is the configured quote amount [config.quoteAmount], whatever
    the position was entered with. In particular, with
    [skipSellingIfLostMoreThan = 50] and a quote amount of 100, a quote of 49
    returns false and clears the watermark. *)
Theorem max_loss_cutoff (cfg : BotConfig) (mint : string)
    (quotes : nat -> option TokenAmount) (wm : Watermarks) (n : nat)
    (stopLoss : TokenAmount) (wmn : Watermarks) (amountOut : TokenAmount) :
  priceCheckDisabled cfg = false ->
  percentagesAccepted cfg ->
  sellSignalState cfg mint quotes wm n = Some (stopLoss, wmn) ->
  quotes n = Some amountOut ->
  0 < BotConfig.skipSellingIfLostMoreThan cfg ->
  TokenAmount.raw amountOut
  < (TokenAmount.raw (BotConfig.quoteAmount cfg)
     * BotConfig.skipSellingIfLostMoreThan cfg) ÷ 100 ->
  (waitForSellSignal cfg mint quotes wm = Some (false, delete mint wmn)
   /\ delete mint wmn !! mint = None)
  /\ forall trailing stored,
      waitForSellSignal (cutoffConfig trailing) mint
        (fun _ => Some (TokenAmount.mk 49)) {[ mint := stored ]}
      = Some (false, ∅)
      /\ waitForSellSignal (cutoffConfig trailing) mint
           (fun _ => Some (TokenAmount.mk 49)) ∅
         = Some (false, ∅).
Proof.
  assert (Hgen : forall cfg' quotes' wm0 k s wmk a,
    priceCheckDisabled cfg' = false ->
    sellSignalState cfg' mint quotes' wm0 k = Some (s, wmk) ->
    quotes' k = Some a ->
    0 < BotConfig.skipSellingIfLostMoreThan cfg' ->
    TokenAmount.raw a
    < (TokenAmount.raw (BotConfig.quoteAmount cfg')
       * BotConfig.skipSellingIfLostMoreThan cfg') ÷ 100 ->
    waitForSellSignal cfg' mint quotes' wm0 = Some (false, delete mint wmk)).
  { intros cfg' quotes' wm0 k s wmk a Hon Hst Hq Hskip Hlow.
    unfold waitForSellSignal. rewrite Hon.
    destruct (sellSignalLoop_from_round _ _ _ _ _ _ _ Hst) as [fuel ->].
    simpl. rewrite Hq, priceRound_quote. cbv zeta.
    unfold maxLossCutoff, TokenAmount.lt, percentOf, TokenAmount.mul_numerator, BN_div.
    cbn [TokenAmount.raw].
    destruct (Z.ltb_spec 0 (BotConfig.skipSellingIfLostMoreThan cfg')); [| lia].
    destruct (Z.ltb_spec (TokenAmount.raw a)
                ((TokenAmount.raw (BotConfig.quoteAmount cfg')
                  * BotConfig.skipSellingIfLostMoreThan cfg') ÷ 100)); [| lia].
    done. }
  intros Hon _ Hst Hq Hskip Hlow. split.
  - split; [by eapply Hgen | apply lookup_delete_eq].
  - intros trailing stored. split.
    + rewrite (Hgen (cutoffConfig trailing) (fun _ => Some (TokenAmount.mk 49))
                 {[ mint := stored ]} 0%nat stored {[ mint := stored ]}
                 (TokenAmount.mk 49)).
      * by rewrite delete_singleton_eq.
      * by destruct trailing.
      * unfold sellSignalState, initStopLoss. by rewrite lookup_singleton_eq.
      * done.
      * by destruct trailing.
      * by destruct trailing.
    + rewrite (Hgen (cutoffConfig trailing) (fun _ => Some (TokenAmount.mk 49))
                 ∅ 0%nat (TokenAmount.mk 90) {[ mint := TokenAmount.mk 90 ]}
                 (TokenAmount.mk 49)).
      * by rewrite delete_singleton_eq.
      * by destruct trailing.
      * unfold sellSignalState, initStopLoss. rewrite lookup_empty.
        by destruct trailing.
      * done.
      * by destruct trailing.
      * by destruct trailing.
Qed.

Lemma max_loss_cutoff_witness :
  waitForSellSignal (cutoffConfig true) "mint" (fun _ => Some (TokenAmount.mk 49)) ∅
  = Some (false, delete "mint" {[ "mint" := TokenAmount.mk 90 ]}).
Proof.
  refine (proj1 (proj1
    (max_loss_cutoff (cutoffConfig true) "mint" (fun _ => Some (TokenAmount.mk 49)) ∅
       0 (TokenAmount.mk 90) {[ "mint" := TokenAmount.mk 90 ]} (TokenAmount.mk 49)
       _ _ _ _ _ _))).
  - reflexivity.
  - unfold percentagesAccepted, acceptedNumber, MAX_SAFE. cbn. lia.
  - vm_compute. reflexivity.
  - reflexivity.
  - reflexivity.
  - reflexivity.
Defined.

(** C7, counterexample. With a quote amount of 105 raw units and
    [skipSellingIfLostMoreThan = 50], a quote of 52 is strictly below
    [105 * 50 / 100 = 52.5], yet it is not below the truncated bound 52: the
    cutoff does not fire, the quote is below the stop-loss of 95, and the
    check returns true. *)
Lemma max_loss_cutoff_counterexample :
  0 < BotConfig.skipSellingIfLostMoreThan oddCutoffConfig
  /\ (inject_Z 52 < specCutoffBound (BotConfig.quoteAmount oddCutoffConfig) oddCutoffConfig)%Q
  /\ maxLossCutoff oddCutoffConfig (TokenAmount.mk 52) = false
  /\ waitForSellSignal oddCutoffConfig "mint" (fun _ => Some (TokenAmount.mk 52)) ∅
     = Some (true, ∅).
Proof.
  split; [reflexivity |].
  split; [reflexivity |].
  split; vm_compute; reflexivity.
Qed.

(** ** The trigger check *)



(** ** The qualification loop as a whole *)

Section FilterLoop.

Variable cfg : BotConfig.
Variable answers : nat -> Outcome bool.

Let budget : Q := filterBudget cfg.

(** The loop returns or throws: fuel that covers the budget is never
    used up. *)
Lemma filterLoop_total (fuel : nat) :
  forall k matchCount,
    Qceiling budget <= Z.of_nat k + Z.of_nat fuel -> (0 < fuel)%nat ->
    exists r, filterLoop cfg answers fuel k matchCount = Some r.
Proof.
  induction fuel as [| fuel IH]; intros k m Hfuel Hpos; [lia |].
  simpl.
  destruct (filterRound cfg (answers k) m) as [b | | m1]; [by eexists | by eexists |].
  destruct (belowBudget (S k) (filterBudget cfg)) eqn:Hb; [| by eexists].
  destruct (fuel_left k fuel budget Hfuel Hb) as [Hfuel' Hpos'].
  by apply IH.
Qed.

(** A loop whose round [n] is reached continues from that round. *)
Lemma filterLoop_from_round (n : nat) :
  forall fuel k matchCount matchCount',
    filterState cfg answers n k matchCount = Some matchCount' ->
    Qceiling budget <= Z.of_nat k + Z.of_nat fuel -> (0 < fuel)%nat ->
    exists fuel',
      filterLoop cfg answers fuel k matchCount
      = filterLoop cfg answers (S fuel') (k + n) matchCount'.
Proof.
  induction n as [| n IH]; intros fuel k m m'; simpl.
  - intros [= <-] _ Hpos. destruct fuel as [| fuel]; [lia |].
    exists fuel. by rewrite Nat.add_0_r.
  - intros Hst Hfuel Hpos. destruct fuel as [| fuel]; [lia |]. simpl.
    destruct (filterRound cfg (answers k) m) as [b | | m1]; [done | done |].
    destruct (belowBudget (S k) (filterBudget cfg)) eqn:Hb; [| done].
    destruct (fuel_left k fuel budget Hfuel Hb) as [Hfuel' Hpos'].
    destruct (IH _ _ _ _ Hst Hfuel' Hpos') as (fuel' & Heq).
    exists fuel'. by rewrite Nat.add_succ_r.
Qed.

(** When every round that is reached runs to the end of the loop body,
    the loop ends by its condition and the function returns false. *)
Lemma filterLoop_budget (fuel : nat) :
  forall k matchCount,
    (forall n m,
        filterState cfg answers n k matchCount = Some m ->
        exists m', filterRound cfg (answers (k + n)%nat) m = FilterNext m') ->
    Qceiling budget <= Z.of_nat k + Z.of_nat fuel -> (0 < fuel)%nat ->
    filterLoop cfg answers fuel k matchCount = Some (Returned false).
Proof.
  induction fuel as [| fuel IH]; intros k m Hall Hfuel Hpos; [lia |].
  simpl.
  destruct (Hall O m eq_refl) as (m1 & Hround).
  rewrite Nat.add_0_r in Hround. rewrite Hround.
  destruct (belowBudget (S k) (filterBudget cfg)) eqn:Hb; [| done].
  destruct (fuel_left k fuel budget Hfuel Hb) as [Hfuel' Hpos'].
  apply IH; [| done | done].
  intros n mn Hst. replace (S k + n)%nat with (k + S n)%nat by lia.
  apply Hall. simpl. by rewrite Hround, Hb.
Qed.

(** A throw of the filter evaluator in a round that is reached leaves
    [filterMatch] as a throw. *)
Lemma filterMatch_throw (n : nat) (matchCount : Z) :
  filterCheckDisabled cfg = false ->
  filterState cfg answers n 0 0 = Some matchCount ->
  answers n = Thrown ->
  filterMatch cfg answers = Some Thrown.
Proof.
  intros Hon Hst Hthrow. unfold filterMatch. rewrite Hon.
  destruct (loopFuel_enough (filterBudget cfg)) as [Hfuel Hpos].
  destruct (filterLoop_from_round _ _ _ _ _ Hst Hfuel Hpos) as [fuel' ->].
  simpl. by rewrite Hthrow.
Qed.

End FilterLoop.

Lemma filterMatch_total (cfg : BotConfig) (answers : nat -> Outcome bool) :
  exists r, filterMatch cfg answers = Some r.
Proof.
  unfold filterMatch. destruct (filterCheckDisabled cfg); [by eexists |].
  destruct (loopFuel_enough (filterBudget cfg)) as [Hfuel Hpos].
  by apply filterLoop_total.
Qed.

(** ** Expiry of the two loops *)

(** C6. The two loops have opposite defaults on expiry, each on its own
    terms. When price checks are on and every round of the exit-signal loop
    that is reached runs to the end of the loop body (no trigger, no abort),
    the loop ends by its round budget and the check returns true, whatever
    the filter settings are. When filter checks are on and every round of
    the qualification loop that is reached runs to the end of the loop body
    (the match counter stays below the threshold), [filterMatch] returns
    false, whatever the price-check settings are. *)
Theorem expiry_defaults (cfg : BotConfig) (mint : string)
    (quotes : nat -> option TokenAmount) (wm : Watermarks)
    (answers : nat -> Outcome bool) :
  (priceCheckDisabled cfg = false ->
   (forall n stopLoss wmn,
       sellSignalState cfg mint quotes wm n = Some (stopLoss, wmn) ->
       exists stopLoss' wm',
         priceRound cfg mint (takeProfitThreshold cfg) (quotes n) stopLoss wmn
         = RoundNext stopLoss' wm') ->
   exists wm', sellSignalLoop cfg mint quotes wm = Some (ExitBudget, wm')
               /\ waitForSellSignal cfg mint quotes wm = Some (true, wm'))
  /\ (filterCheckDisabled cfg = false ->
      (forall n matchCount,
          filterState cfg answers n 0 0 = Some matchCount ->
          exists matchCount',
            filterRound cfg (answers n) matchCount = FilterNext matchCount') ->
      filterMatch cfg answers = Some (Returned false)).
Proof.
  split.
  - intros Hprice Hrounds.
    unfold waitForSellSignal. rewrite Hprice.
    unfold sellSignalLoop, sellSignalState in *.
    destruct (initStopLoss cfg mint wm) as [s wm0].
    destruct (loopFuel_enough (priceBudget cfg)) as [Hfuel Hpos].
    destruct (priceLoop_budget cfg mint quotes (takeProfitThreshold cfg) _ 0%nat s wm0
                Hrounds Hfuel Hpos) as [wm' Hloop].
    exists wm'. by rewrite Hloop.
  - intros Hfilter Hmatches.
    unfold filterMatch. rewrite Hfilter.
    destruct (loopFuel_enough (filterBudget cfg)) as [Hfuel Hpos].
    by apply filterLoop_budget.
Qed.

Lemma expiry_defaults_witness :
  (exists wm',
      sellSignalLoop (filtersOffConfig) "mint" (fun _ => None) ∅ = Some (ExitBudget, wm')
      /\ waitForSellSignal (filtersOffConfig) "mint" (fun _ => None) ∅ = Some (true, wm'))
  /\ filterMatch pricesOffConfig (fun _ => Returned false) = Some (Returned false).
Proof.
  split.
  - apply (proj1 (expiry_defaults filtersOffConfig "mint" (fun _ => None) ∅
                    (fun _ => Returned false))).
    + reflexivity.
    + intros n s wmn _. exists s, wmn. reflexivity.
  - apply (proj2 (expiry_defaults pricesOffConfig "mint" (fun _ => None) ∅
                    (fun _ => Returned false))).
    + reflexivity.
    + intros n m _. exists 0. reflexivity.
Defined.

(** ** A filter evaluator that throws *)

(** C4, as the code has it. With three rounds to run and two consecutive
    matches required, a filter evaluator that throws in the first round and
    matches afterwards makes [filterMatch] throw: the [try] of the loop body
    has a [finally] and no [catch]. The throw reaches the [catch] of [buy],
    which gives the buy up. A first round that answers false is followed by
    two more rounds, which match. *)
Theorem filter_throw_escapes :
  filterMatch thresholdConfig throwsThenMatches = Some Thrown
  /\ filterMatch thresholdConfig failsThenMatches = Some (Returned true)
  /\ buy thresholdConfig throwingBuyEnv "mint" (idleBot 2) = Some (BuyFailed, idleBot 2).
Proof. repeat split; vm_compute; reflexivity. Qed.

(** ** Admission *)

Lemma gateStep_balanced (cfg : BotConfig) (s s' : Bot * nat) :
  gateStep cfg s s' -> gateBalanced cfg s -> gateBalanced cfg s'.
Proof.
  unfold gateBalanced.
  intros [bot bot' holders Hadmit | bot holders Hskip | bot holders
         | bot holders | bot holders Hactive | bot bot' holders Hs Hc];
    cbn [fst snd]; intros (Hsem & Hpos & Hsells).
  - unfold tryAdmitBuy in Hadmit.
    destruct (buyRejected cfg bot); [done |].
    unfold Semaphore.acquire in Hadmit.
    destruct (Z.leb_spec 1 (semaphore bot)); [| done].
    injection Hadmit as <-. simpl. lia.
  - done.
  - unfold releaseBuy, Semaphore.release. simpl. lia.
  - unfold sellEnter. simpl. lia.
  - unfold sellLeave. simpl. lia.
  - rewrite Hs, Hc. lia.
Qed.

Lemma gate_invariant (cfg : BotConfig) (s : Bot * nat) :
  0 <= BotConfig.maxTokensAtTheTime cfg ->
  gateReachable cfg s ->
  gateBalanced cfg s.
Proof.
  intros HN (s0 & (Hsem & Hsells & Hholders) & Hsteps).
  assert (Hinit : gateBalanced cfg s0).
  { unfold gateBalanced. rewrite Hsem, Hsells, Hholders. lia. }
  clear Hsem Hsells Hholders.
  induction Hsteps as [| s1 s2 s3 Hstep Hrest IH]; [done |].
  apply IH. by eapply gateStep_balanced.
Qed.

Lemma buyRejected_spec (cfg : BotConfig) (bot : Bot) :
  buyRejected cfg bot = true
  <-> semaphore bot <= 0
      \/ BotConfig.maxTokensAtTheTime cfg
         <= BotConfig.maxTokensAtTheTime cfg - semaphore bot + sellExecutionCount bot.
Proof.
  unfold buyRejected, numberOfActionsBeingProcessed, Semaphore.isLocked,
    Semaphore.getValue.
  rewrite orb_true_iff, !Z.leb_le. done.
Qed.

(** C2. A buy attempt that finds the permit pool exhausted, or
    [N - availablePermits + activeSellCount >= N], returns at once and leaves
    the bot as it was: no permit is taken. In every state the gate can
    reach, at most [N] buy tasks hold a permit and the free permits are [N]
    minus the holders; when [N] tasks hold one, a further attempt is
    skipped, and once one of them has released its permit, with no sell in
    progress, an attempt is admitted again. *)
Theorem admission_bound (cfg : BotConfig) (env : BuyEnv) (mint : string)
    (bot : Bot) (holders : nat) :
  0 <= BotConfig.maxTokensAtTheTime cfg ->
  gateReachable cfg (bot, holders) ->
  let N := BotConfig.maxTokensAtTheTime cfg in
  (semaphore bot <= 0 \/ N <= N - semaphore bot + sellExecutionCount bot ->
   tryAdmitBuy cfg bot = None
   /\ exists path, buy cfg env mint bot = Some (path, bot))
  /\ Z.of_nat holders <= N
  /\ semaphore bot = N - Z.of_nat holders
  /\ (Z.of_nat holders = N ->
      tryAdmitBuy cfg bot = None
      /\ forall bot', gateStep cfg (bot, holders) (bot', S holders) -> False)
  /\ (Z.of_nat holders = N -> (0 < holders)%nat -> sellExecutionCount bot = 0 ->
      gateStep cfg (bot, holders) (releaseBuy bot, pred holders)
      /\ exists bot', tryAdmitBuy cfg (releaseBuy bot) = Some bot'
                      /\ semaphore bot' = 0).
Proof.
  intros HN Hreach. cbv zeta.
  destruct (gate_invariant cfg _ HN Hreach) as (Hsem & Hpos & Hsells).
  cbn [fst snd] in *.
  assert (Hskip : semaphore bot <= 0
                  \/ BotConfig.maxTokensAtTheTime cfg
                     <= BotConfig.maxTokensAtTheTime cfg - semaphore bot
                        + sellExecutionCount bot ->
                  tryAdmitBuy cfg bot = None).
  { intros Hrej. apply buyRejected_spec in Hrej.
    unfold tryAdmitBuy. by rewrite Hrej. }
  split; [| split; [lia | split; [done | split]]].
  - intros Hrej. split; [by apply Hskip |].
    unfold buy. rewrite (Hskip Hrej).
    destruct (BotConfig.useSnipeList cfg && negb (inSnipeList env)); by eexists.
  - intros Hfull.
    assert (Hnone : tryAdmitBuy cfg bot = None) by (apply Hskip; lia).
    split; [done |].
    intros bot' Hstep. inversion Hstep; subst; try lia. congruence.
  - intros Hfull Hheld Hidle. split.
    + destruct holders as [| holders']; [lia |]. apply gate_release.
    + unfold tryAdmitBuy, buyRejected, numberOfActionsBeingProcessed, releaseBuy,
        Semaphore.isLocked, Semaphore.getValue, Semaphore.acquire, Semaphore.release.
      simpl. rewrite Hidle.
      replace (semaphore bot) with 0 by lia. simpl.
      destruct (Z.leb_spec (BotConfig.maxTokensAtTheTime cfg)
                  (BotConfig.maxTokensAtTheTime cfg - (0 + 1) + 0)); [lia |].
      by eexists.
Qed.

Lemma admission_bound_witness :
  tryAdmitBuy thresholdConfig (idleBot 0) = None
  /\ buy thresholdConfig quietBuyEnv "mint" (idleBot 0) = Some (BuySkipped, idleBot 0).
Proof.
  assert (Hreach : gateReachable thresholdConfig (idleBot 0, 2%nat)).
  { exists (idleBot 2, 0%nat). split.
    - repeat split.
    - eapply rtc_l; [apply (gate_admit _ _ (idleBot 1)); reflexivity |].
      eapply rtc_l; [apply (gate_admit _ _ (idleBot 0)); reflexivity |].
      apply rtc_refl. }
  pose proof (admission_bound thresholdConfig quietBuyEnv "mint" (idleBot 0) 2
                ltac:(vm_compute; discriminate) Hreach) as (_ & _ & _ & Hfull & _).
  split.
  - exact (proj1 (Hfull eq_refl)).
  - reflexivity.
Defined.

(** ** The buy pipeline *)

(** [buy] writes nothing to the journal, restores the permits, and touches
    no watermark. *)
Lemma buy_frame (cfg : BotConfig) (env : BuyEnv) (mint : string) (bot bot' : Bot)
    (path : BuyPath) :
  buy cfg env mint bot = Some (path, bot') ->
  journal bot' = journal bot
  /\ semaphore bot' = semaphore bot
  /\ tradesCount bot' = tradesCount bot.
Proof.
  unfold buy, tryAdmitBuy, buyTry, buyOpen, releaseBuy, Semaphore.acquire,
    Semaphore.release.
  intros Hbuy. repeat case_match; simplify_eq; simpl; repeat split; lia.
Qed.

(** The [catch] of [buy] leaves no trade for the mint. *)
Lemma buy_failed_discards (cfg : BotConfig) (env : BuyEnv) (mint : string)
    (bot bot' : Bot) :
  buy cfg env mint bot = Some (BuyFailed, bot') ->
  trades bot' !! mint = None.
Proof.
  unfold buy, tryAdmitBuy, buyTry, buyOpen, releaseBuy.
  intros Hbuy. repeat case_match; simplify_eq; simpl; apply lookup_delete_eq.
Qed.

(** A buy whose attempts all end unconfirmed leaves the started trade in
    the map. *)
Lemma buy_unconfirmed_leaves_trade (cfg : BotConfig) (env : BuyEnv) (mint : string)
    (bot bot' : Bot) :
  buy cfg env mint bot = Some (BuyUnconfirmed, bot') ->
  buyRetryLoop (buySwaps env) (BotConfig.maxBuyRetries cfg) 0 = false
  /\ trades bot' !! mint = Some (Trade.transitionStart (Trade.create mint)).
Proof.
  unfold buy, tryAdmitBuy, buyTry, buyOpen, releaseBuy.
  intros Hbuy. repeat case_match; simplify_eq; simpl;
    (split; [done | apply lookup_insert_eq]).
Qed.

(** The retry loop reports no confirmation exactly when no attempt within
    the limit was confirmed. *)
Lemma buyRetryLoop_false (swaps : nat -> Outcome bool) (remaining : nat) :
  forall i,
    buyRetryLoop swaps remaining i = false
    <-> forall k, (i <= k < i + remaining)%nat -> swaps k ≠ Returned true.
Proof.
  induction remaining as [| remaining IH]; intros i; simpl.
  - split; [intros _ k Hk; lia | done].
  - destruct (swaps i) as [[|] |] eqn:Hi.
    + split; [done |]. intros Hall. exfalso. apply (Hall i); [lia | done].
    + rewrite IH. split.
      * intros Hall k Hk. destruct (decide (k = i)) as [-> | Hne]; [congruence |].
        apply Hall. lia.
      * intros Hall k Hk. apply Hall. lia.
    + rewrite IH. split.
      * intros Hall k Hk. destruct (decide (k = i)) as [-> | Hne]; [congruence |].
        apply Hall. lia.
      * intros Hall k Hk. apply Hall. lia.
Qed.

(** C3, as the code has it. With three attempts allowed and every swap
    unconfirmed, [buy] ends with the trade of the mint still in the
    active-trades map, in state [Started]; only the [catch] of line 222
    deletes it, and that is not reached when the attempts run out. Nothing
    is written to the journal. *)
Theorem buy_exhausted_trade_remains :
  buy thresholdConfig quietBuyEnv "mint" (idleBot 2)
  = Some (BuyUnconfirmed,
          setTrades {[ "mint" := Trade.transitionStart (Trade.create "mint") ]} (idleBot 2))
  /\ trades (setTrades {[ "mint" := Trade.transitionStart (Trade.create "mint") ]}
                       (idleBot 2)) !! "mint"
     = Some (Trade.transitionStart (Trade.create "mint"))
  /\ buy thresholdConfig brokenBuyEnv "mint" (idleBot 2) = Some (BuyFailed, idleBot 2).
Proof. repeat split; vm_compute; reflexivity. Qed.

(** ** The sell pipeline *)

(** An exception that reaches the [catch] of [sell] was thrown before the
    retry loop, with the bot as [sell] found it. *)
Lemma sellTry_thrown (cfg : BotConfig) (env : SellEnv) (acct : RawAccount)
    (bot bot' : Bot) :
  sellTry cfg env acct bot = Some (Thrown, bot') ->
  bot' = bot /\ (poolData env = Thrown \/ sellAccounts env = Thrown).
Proof.
  unfold sellTry. intros Htry.
  repeat case_match; simplify_eq; split; auto.
Qed.

(** The [catch] and the [finally] of [sell] when the balance refresh
    returns: an exception that reaches the [catch] while the mint has an
    active trade closes the trade with exit amount 0, exit fee 0 and reason
    [sell_failed] and adds its profit to the balance; the [finally] block
    then gives the trade the next sequence id, appends it to the journal
    (when the write succeeds), removes it from the active-trades map and
    puts the sell counter back. *)
Lemma sell_failure_journaled (cfg : BotConfig) (env : SellEnv) (acct : RawAccount)
    (bot bot1 : Bot) (trade : Trade) (total : Q) :
  trades bot !! mint acct = Some trade ->
  sellTry cfg env acct (sellEnter bot) = Some (Thrown, bot1) ->
  refreshedBalance env = Returned total ->
  let closed := Trade.close 0 0 "sell_failed" trade in
  let failed := sellCatch acct bot1 in
  (Trade.state closed = Trade.Closed
   /\ Trade.exitAmount closed = 0%Q
   /\ Trade.exitFee closed = 0%Q
   /\ Trade.reason closed = "sell_failed")
  /\ trades failed !! mint acct = Some closed
  /\ balance failed = (balance bot + Trade.profit closed)%Q
  /\ exists bot',
      sell cfg env acct bot = Some (Returned tt, bot')
      /\ trades bot' !! mint acct = None
      /\ tradesCount bot' = tradesCount bot + 1
      /\ journal bot'
         = (if journalWritten env
            then journal bot ++ [Trade.complete total (tradesCount bot + 1) closed]
            else journal bot)
      /\ balance bot' = total
      /\ sellExecutionCount bot' = sellExecutionCount bot.
Proof.
  intros Htrade Htry Hrefresh. cbv zeta.
  destruct (sellTry_thrown _ _ _ _ _ Htry) as [-> _].
  split; [done |].
  unfold sellCatch. cbn [trades sellEnter setSellExecutionCount]. rewrite Htrade.
  split; [apply lookup_insert_eq |]. split; [done |].
  unfold sell. rewrite Htry.
  unfold sellFinally. rewrite Hrefresh.
  eexists. split; [reflexivity |].
  unfold sellCatch, journalTrade.
  cbn [trades sellEnter setSellExecutionCount setBalance setTrades]. rewrite Htrade.
  cbn [trades sellEnter setSellExecutionCount setBalance setTrades]. rewrite lookup_insert_eq.
  destruct (journalWritten env); simpl;
    (split; [apply lookup_delete_eq |]); repeat split; lia.
Qed.

Lemma sell_failure_journaled_witness :
  exists bot',
    sell thresholdConfig failingSellEnv (mkRawAccount "mint" 500) holdingBot
    = Some (Returned tt, bot')
    /\ trades bot' !! "mint" = None
    /\ tradesCount bot' = 5
    /\ journal bot'
       = [Trade.complete 7 5 (Trade.close 0 0 "sell_failed" openTrade)].
Proof.
  destruct (sell_failure_journaled thresholdConfig failingSellEnv
              (mkRawAccount "mint" 500) holdingBot (sellEnter holdingBot) openTrade 7
              ltac:(vm_compute; reflexivity) ltac:(reflexivity) ltac:(reflexivity))
    as (_ & _ & _ & bot' & Hsell & Hgone & Hcount & Hjournal & _).
  exists bot'. repeat split; assumption.
Defined.

(** C9, as the code has it. The pool lookup throws while the mint has an
    active trade, and the balance refresh of the [finally] block throws
    too. The [catch] has closed the trade as [sell_failed] and added its
    profit to the balance, but the exception of [updateBalance] leaves the
    [finally] block at its first statement: the call ends with that
    exception, the closed trade is still in the active-trades map, the
    sequence counter and the journal are as before, and the sell counter
    stays incremented. With the same inputs and a balance refresh that
    returns, the trade is journaled and removed. *)
Theorem sell_failure_refresh_throws :
  sell thresholdConfig unreachableSellEnv (mkRawAccount "mint" 500) holdingBot
  = Some (Thrown, sellCatch (mkRawAccount "mint" 500) (sellEnter holdingBot))
  /\ trades (sellCatch (mkRawAccount "mint" 500) (sellEnter holdingBot)) !! "mint"
     = Some (Trade.close 0 0 "sell_failed" openTrade)
  /\ journal (sellCatch (mkRawAccount "mint" 500) (sellEnter holdingBot)) = []
  /\ tradesCount (sellCatch (mkRawAccount "mint" 500) (sellEnter holdingBot)) = 4
  /\ sellExecutionCount (sellCatch (mkRawAccount "mint" 500) (sellEnter holdingBot))
     = sellExecutionCount holdingBot + 1
  /\ exists bot',
      sell thresholdConfig failingSellEnv (mkRawAccount "mint" 500) holdingBot
      = Some (Returned tt, bot')
      /\ trades bot' !! "mint" = None
      /\ journal bot' = [Trade.complete 7 5 (Trade.close 0 0 "sell_failed" openTrade)]
      /\ sellExecutionCount bot' = sellExecutionCount holdingBot.
Proof.
  split; [reflexivity |].
  split; [vm_compute; reflexivity |].
  split; [reflexivity |].
  split; [reflexivity |].
  split; [reflexivity |].
  eexists. split; [reflexivity |].
  split; [vm_compute; reflexivity |].
  split; reflexivity.
Qed.

(** * Further properties *)

(** ** The number of rounds *)

Lemma belowBudget_rounds (k : nat) (budget : Q) :
  belowBudget k budget = true -> Z.of_nat k < roundsToRun budget.
Proof. intros H. apply belowBudget_lt in H. unfold roundsToRun. lia. Qed.

Lemma belowBudget_iff (k : nat) (budget : Q) :
  belowBudget k budget = true <-> Z.of_nat k < Qceiling budget.
Proof.
  split; [apply belowBudget_lt |].
  intros Hlt. unfold belowBudget. apply negb_true_iff.
  destruct (Qle_bool budget (inject_Z (Z.of_nat k))) eqn:Hle; [| done].
  apply Qle_bool_iff in Hle. exfalso.
  assert (Hk : (inject_Z (Z.of_nat k) <= inject_Z (Qceiling budget - 1))%Q).
  { rewrite <- Zle_Qle. lia. }
  pose proof (Qceiling_lt budget) as Hc.
  apply (Qlt_irrefl budget).
  eapply Qle_lt_trans; [exact Hle |].
  eapply Qle_lt_trans; [exact Hk | exact Hc].
Qed.

(** For a positive interval the budget rounds up to the integer ceiling of
    [duration / interval]. *)
Lemma timesToCheck_ceiling (duration interval : Z) :
  0 < interval ->
  Qceiling (timesToCheck duration interval) = - ((- duration) / interval).
Proof.
  intros Hpos. destruct interval as [| p | p]; [lia | | lia].
  unfold timesToCheck, Qceiling, Qfloor, Qdiv, Qinv, Qmult, Qopp, inject_Z. simpl.
  rewrite Z.mul_1_r. reflexivity.
Qed.

Section PriceRounds.

Variable cfg : BotConfig.
Variable mint : string.
Variables quotes quotes' : nat -> option TokenAmount.
Variable takeProfit : TokenAmount.

Hypothesis same_quotes :
  forall j, Z.of_nat j < roundsToRun (priceBudget cfg) -> quotes j = quotes' j.

Lemma priceLoop_ext (fuel : nat) :
  forall k stopLoss wm,
    Z.of_nat k < roundsToRun (priceBudget cfg) ->
    priceLoop cfg mint quotes takeProfit fuel k stopLoss wm
    = priceLoop cfg mint quotes' takeProfit fuel k stopLoss wm.
Proof.
  induction fuel as [| fuel IH]; intros k s wm Hk; [done |].
  simpl. rewrite <- (same_quotes k Hk).
  destruct (priceRound cfg mint takeProfit (quotes k) s wm) as [b wm1 | wm1 | s1 wm1];
    [done | done |].
  destruct (belowBudget (S k) (priceBudget cfg)) eqn:Hb; [| done].
  apply IH. by apply belowBudget_rounds.
Qed.

End PriceRounds.

(** X1. The exit-signal check asks for at most
    [max 1 (ceiling (duration / interval))] quotes: two runs whose quotes
    agree in the rounds below that number end alike. With a positive
    interval the number is [max 1 (- ((- duration) / interval))] in integer
    division, which is 1 when the duration does not exceed the interval. *)
Theorem exit_signal_rounds_bounded (cfg : BotConfig) (mint : string)
    (quotes quotes' : nat -> option TokenAmount) (wm : Watermarks) :
  0 < BotConfig.priceCheckInterval cfg ->
  let rounds :=
    Z.max 1 (- ((- BotConfig.priceCheckDuration cfg) / BotConfig.priceCheckInterval cfg)) in
  (forall j, Z.of_nat j < rounds -> quotes j = quotes' j) ->
  waitForSellSignal cfg mint quotes wm = waitForSellSignal cfg mint quotes' wm
  /\ (BotConfig.priceCheckDuration cfg <= BotConfig.priceCheckInterval cfg -> rounds = 1).
Proof.
  intros Hpos rounds Hsame. split.
  - unfold waitForSellSignal, sellSignalLoop.
    destruct (priceCheckDisabled cfg); [done |].
    destruct (initStopLoss cfg mint wm) as [s wm0].
    rewrite (priceLoop_ext cfg mint quotes quotes'); [done | |].
    + intros j Hj. apply Hsame. unfold rounds.
      unfold roundsToRun, priceBudget in Hj.
      by rewrite timesToCheck_ceiling in Hj.
    + unfold roundsToRun. lia.
  - intros Hshort. unfold rounds.
    assert (- BotConfig.priceCheckInterval cfg <= - BotConfig.priceCheckDuration cfg)
      as Hneg by lia.
    assert (-1 <= (- BotConfig.priceCheckDuration cfg) / BotConfig.priceCheckInterval cfg).
    { apply Z.div_le_lower_bound; lia. }
    lia.
Qed.

Lemma exit_signal_rounds_bounded_witness :
  waitForSellSignal thresholdConfig "mint" lateQuotes ∅
  = waitForSellSignal thresholdConfig "mint" (fun _ => Some (TokenAmount.mk 100000000)) ∅.
Proof.
  refine (proj1 (exit_signal_rounds_bounded thresholdConfig "mint" lateQuotes
                   (fun _ => Some (TokenAmount.mk 100000000)) ∅ _ _)).
  - reflexivity.
  - intros j Hj. change (Z.of_nat j < 3) in Hj.
    destruct j as [| [| [| j]]]; [reflexivity | reflexivity | reflexivity | lia].
Defined.

(** ** The cutoff switched off *)





(** ** Trailing stop switched off *)

Lemma priceLoop_fixed_watermark (cfg : BotConfig) (mint : string)
    (quotes : nat -> option TokenAmount) (takeProfit : TokenAmount) (fuel : nat) :
  BotConfig.trailingStopLoss cfg = false ->
  forall k stopLoss wm e wm',
    priceLoop cfg mint quotes takeProfit fuel k stopLoss wm = Some (e, wm') ->
    wm' = match e with ExitBudget => wm | _ => delete mint wm end.
Proof.
  intros Hoff. induction fuel as [| fuel IH]; intros k s wm e wm'; [done |].
  simpl. unfold priceRound, trailingUpdate. rewrite Hoff.
  destruct (quotes k) as [a |].
  - destruct (maxLossCutoff cfg a); [by intros [= <- <-] |].
    destruct (TokenAmount.lt a s); [by intros [= <- <-] |].
    destruct (TokenAmount.gt a takeProfit); [by intros [= <- <-] |].
    destruct (belowBudget (S k) (priceBudget cfg)); [apply IH | by intros [= <- <-]].
  - destruct (belowBudget (S k) (priceBudget cfg)); [apply IH | by intros [= <- <-]].
Qed.

(** X3. With trailing stop disabled the exit-signal check never moves a
    watermark. When it ends by its round budget, the map is the one it
    started from, with the initial stop-loss
    [entry - entry * stopLossPct / 100] added for a mint that had none; when
    it ends by a trigger or by the max-loss abort, the map is the one it
    started from without the entry of the mint. *)
Theorem untrailed_watermark_fixed (cfg : BotConfig) (mint : string)
    (quotes : nat -> option TokenAmount) (wm : Watermarks) (e : LoopExit)
    (wm' : Watermarks) :
  BotConfig.trailingStopLoss cfg = false ->
  sellSignalLoop cfg mint quotes wm = Some (e, wm') ->
  wm' = match e with
        | ExitBudget =>
            match wm !! mint with
            | Some _ => wm
            | None =>
                <[mint := TokenAmount.mk
                            (TokenAmount.raw (BotConfig.quoteAmount cfg)
                             - (TokenAmount.raw (BotConfig.quoteAmount cfg)
                                * BotConfig.stopLoss cfg) ÷ 100)]> wm
            end
        | ExitBreak | ExitReturn _ => delete mint wm
        end.
Proof.
  intros Hoff. unfold sellSignalLoop, initStopLoss.
  destruct (wm !! mint) as [stored |] eqn:Hwm; intros Hloop;
    apply priceLoop_fixed_watermark in Hloop; try done; subst wm'.
  rewrite delete_insert_eq. by destruct e.
Qed.

Lemma untrailed_watermark_fixed_witness :
  ({[ "mint" := TokenAmount.mk 90000000 ]} : Watermarks)
  = <[ "mint" := TokenAmount.mk (100000000 - (100000000 * 10) ÷ 100) ]> ∅.
Proof.
  pose proof (untrailed_watermark_fixed (boundaryConfig false) "mint"
                (fun _ => Some (TokenAmount.mk 100000000)) ∅ ExitBudget
                {[ "mint" := TokenAmount.mk 90000000 ]}
                ltac:(reflexivity) ltac:(vm_compute; reflexivity)) as H.
  rewrite lookup_empty in H. exact H.
Defined.

(** ** A raise of the watermark and the stop in one round *)

(** X4. With a stop-loss percentage and a quote that are not negative, the
    floor that the trailing update computes from a quote is never above the
    quote. So a round that raises the watermark cannot stop out on it: such
    a round breaks only when the quote is above the take-profit, and
    otherwise goes on with the raised watermark. *)
Theorem raised_watermark_no_stop (cfg : BotConfig) (mint : string)
    (takeProfit amountOut stopLoss : TokenAmount) (wm : Watermarks) :
  BotConfig.trailingStopLoss cfg = true ->
  0 <= BotConfig.stopLoss cfg ->
  0 <= TokenAmount.raw amountOut ->
  maxLossCutoff cfg amountOut = false ->
  let floor :=
    TokenAmount.mk (TokenAmount.raw amountOut
                    - (TokenAmount.raw amountOut * BotConfig.stopLoss cfg) ÷ 100) in
  TokenAmount.raw stopLoss < TokenAmount.raw floor ->
  TokenAmount.raw floor <= TokenAmount.raw amountOut
  /\ priceRound cfg mint takeProfit (Some amountOut) stopLoss wm
     = if TokenAmount.raw takeProfit <? TokenAmount.raw amountOut
       then RoundBreak (delete mint wm)
       else RoundNext floor (<[mint := floor]> wm).
Proof.
  intros Htrail Hsl Ha Hcut floor Hraise.
  assert (Hquot : 0 <= (TokenAmount.raw amountOut * BotConfig.stopLoss cfg) ÷ 100).
  { apply Z.quot_pos; lia. }
  assert (Hfloor : TokenAmount.raw floor <= TokenAmount.raw amountOut).
  { unfold floor. simpl. lia. }
  split; [done |].
  rewrite priceRound_quote. cbv zeta. rewrite Hcut.
  unfold trailingUpdate. rewrite Htrail.
  unfold TokenAmount.gt, TokenAmount.subtract, percentOf, TokenAmount.mul_numerator, BN_div.
  cbn [TokenAmount.raw].
  assert (Hup : (TokenAmount.raw stopLoss
                 <? TokenAmount.raw amountOut
                    - (TokenAmount.raw amountOut * BotConfig.stopLoss cfg) ÷ 100) = true).
  { apply Z.ltb_lt. exact Hraise. }
  rewrite Hup. cbn [fst snd TokenAmount.raw].
  assert (Hno : (TokenAmount.raw amountOut
                 <? TokenAmount.raw amountOut
                    - (TokenAmount.raw amountOut * BotConfig.stopLoss cfg) ÷ 100) = false).
  { apply Z.ltb_ge. lia. }
  rewrite Hno. reflexivity.
Qed.

Lemma raised_watermark_no_stop_witness :
  priceRound trailingConfig "mint" (TokenAmount.mk 150000000)
    (Some (TokenAmount.mk 120000000)) (TokenAmount.mk 90000000) ∅
  = RoundNext (TokenAmount.mk 108000000) {[ "mint" := TokenAmount.mk 108000000 ]}.
Proof.
  refine (proj2 (raised_watermark_no_stop trailingConfig "mint" (TokenAmount.mk 150000000)
                   (TokenAmount.mk 120000000) (TokenAmount.mk 90000000) ∅ _ _ _ _ _)).
  - reflexivity.
  - vm_compute. discriminate.
  - vm_compute. discriminate.
  - reflexivity.
  - vm_compute. reflexivity.
Defined.

(** ** The rounds of the qualification loop *)

Section FilterRounds.

Variable cfg : BotConfig.
Variables answers answers' : nat -> Outcome bool.

Hypothesis same_answers :
  forall j, Z.of_nat j < roundsToRun (filterBudget cfg) -> answers j = answers' j.

Lemma filterLoop_ext (fuel : nat) :
  forall k matchCount,
    Z.of_nat k < roundsToRun (filterBudget cfg) ->
    filterLoop cfg answers fuel k matchCount = filterLoop cfg answers' fuel k matchCount.
Proof.
  induction fuel as [| fuel IH]; intros k m Hk; [done |].
  simpl. rewrite <- (same_answers k Hk).
  destruct (filterRound cfg (answers k) m) as [b | | m1]; [done | done |].
  destruct (belowBudget (S k) (filterBudget cfg)) eqn:Hb; [| done].
  apply IH. by apply belowBudget_rounds.
Qed.

End FilterRounds.

Section FilterRuns.

Variable cfg : BotConfig.
Variable answers : nat -> Outcome bool.

Let required : Z := BotConfig.consecutiveMatchCount cfg.
Let rounds : Z := roundsToRun (filterBudget cfg).

(** An evaluator that matches in every round: the counter equals the round
    number, and the loop answers true exactly when the required count fits
    in the rounds. *)
Lemma filterLoop_all_match (fuel : nat) :
  (forall j, Z.of_nat j < rounds -> answers j = Returned true) ->
  forall k,
    Qceiling (filterBudget cfg) <= Z.of_nat k + Z.of_nat fuel -> (0 < fuel)%nat ->
    Z.of_nat k < rounds ->
    Z.of_nat k < required \/ k = 0%nat ->
    filterLoop cfg answers fuel k (Z.of_nat k) = Some (Returned (required <=? rounds)).
Proof.
  intros Hall. induction fuel as [| fuel IH]; intros k Hfuel Hpos Hk Hopen; [lia |].
  simpl. rewrite (Hall k Hk). unfold filterRound. fold required.
  destruct (Z.leb_spec required (Z.of_nat k + 1)) as [Hreached | Hmore].
  - f_equal. f_equal. symmetry. apply Z.leb_le. lia.
  - destruct (belowBudget (S k) (filterBudget cfg)) eqn:Hb.
    + destruct (fuel_left k fuel _ Hfuel Hb) as [Hfuel' Hpos'].
      replace (Z.of_nat k + 1) with (Z.of_nat (S k)) by lia.
      apply IH; [done | done | by apply belowBudget_rounds | lia].
    + f_equal. f_equal. symmetry. apply Z.leb_gt.
      assert (Hend : ~ Z.of_nat (S k) < Qceiling (filterBudget cfg)).
      { intros Hlt. apply belowBudget_iff in Hlt. congruence. }
      unfold rounds, roundsToRun. lia.
Qed.

(** A loop that answers true has just seen the required number of
    consecutive matches. *)
Lemma filterLoop_true_run (fuel : nat) :
  forall k matchCount,
    0 <= matchCount ->
    (forall j, Z.of_nat k - matchCount <= Z.of_nat j < Z.of_nat k ->
               answers j = Returned true) ->
    filterLoop cfg answers fuel k matchCount = Some (Returned true) ->
    exists last,
      answers last = Returned true
      /\ forall j, Z.of_nat last + 1 - required <= Z.of_nat j <= Z.of_nat last ->
                   answers j = Returned true.
Proof.
  induction fuel as [| fuel IH]; intros k m Hm Hrun; [done |].
  simpl. unfold filterRound. fold required.
  destruct (answers k) as [[|] |] eqn:Hk; [| | done].
  - destruct (Z.leb_spec required (m + 1)) as [Hreached | Hmore].
    + intros _. exists k. split; [done |].
      intros j Hj. destruct (decide (j = k)) as [-> | Hne]; [done |].
      apply Hrun. lia.
    + destruct (belowBudget (S k) (filterBudget cfg)); [| done].
      apply IH; [lia |].
      intros j Hj. destruct (decide (j = k)) as [-> | Hne]; [done |].
      apply Hrun. lia.
  - destruct (belowBudget (S k) (filterBudget cfg)); [| done].
    apply IH; [lia |]. intros j Hj. lia.
Qed.

End FilterRuns.

(** X5. The qualification loop asks the filter evaluator at most
    [max 1 (ceiling (duration / interval))] times: two evaluators that agree
    in the rounds below that number give the same outcome. *)
Theorem filter_rounds_bounded (cfg : BotConfig) (answers answers' : nat -> Outcome bool) :
  0 < BotConfig.filterCheckInterval cfg ->
  (forall j,
      Z.of_nat j
      < Z.max 1 (- ((- BotConfig.filterCheckDuration cfg) / BotConfig.filterCheckInterval cfg)) ->
      answers j = answers' j) ->
  filterMatch cfg answers = filterMatch cfg answers'.
Proof.
  intros Hpos Hsame. unfold filterMatch.
  destruct (filterCheckDisabled cfg); [done |].
  apply filterLoop_ext.
  - intros j Hj. apply Hsame.
    unfold roundsToRun, filterBudget in Hj. by rewrite timesToCheck_ceiling in Hj.
  - unfold roundsToRun. lia.
Qed.

Lemma filter_rounds_bounded_witness :
  filterMatch thresholdConfig
    (fun k => match k with O | S O | S (S O) => Returned false | _ => Thrown end)
  = filterMatch thresholdConfig (fun _ => Returned false).
Proof.
  apply (filter_rounds_bounded thresholdConfig).
  - reflexivity.
  - intros j Hj. change (Z.of_nat j < 3) in Hj.
    destruct j as [| [| [| j]]]; [reflexivity | reflexivity | reflexivity | lia].
Defined.

(** X6. With a filter evaluator that matches in every round, a positive
    interval and a duration other than zero, both below [2^53] in size so
    that their quotient is compared exactly, [filterMatch] returns true exactly
    when [consecutiveMatchCount] is at most the number of rounds
    [max 1 (ceiling (duration / interval))]: a required count above the
    number of rounds lets no pool qualify. *)
Theorem filter_required_count_fits (cfg : BotConfig) (answers : nat -> Outcome bool) :
  timesExact (BotConfig.filterCheckDuration cfg) (BotConfig.filterCheckInterval cfg) ->
  BotConfig.filterCheckDuration cfg <> 0 ->
  let rounds :=
    Z.max 1 (- ((- BotConfig.filterCheckDuration cfg) / BotConfig.filterCheckInterval cfg)) in
  (forall j, Z.of_nat j < rounds -> answers j = Returned true) ->
  filterMatch cfg answers
  = Some (Returned (BotConfig.consecutiveMatchCount cfg <=? rounds)).
Proof.
  intros [[Hint _] _] Hdur rounds Hall. unfold filterMatch, filterCheckDisabled.
  destruct (Z.eqb_spec (BotConfig.filterCheckInterval cfg) 0); [lia |].
  destruct (Z.eqb_spec (BotConfig.filterCheckDuration cfg) 0); [done |].
  cbn [orb].
  assert (Hrounds : roundsToRun (filterBudget cfg) = rounds).
  { unfold roundsToRun, filterBudget. by rewrite timesToCheck_ceiling. }
  destruct (loopFuel_enough (filterBudget cfg)) as [Hfuel Hpos].
  rewrite <- Hrounds.
  apply (filterLoop_all_match cfg answers (loopFuel (filterBudget cfg))); try done.
  - intros j Hj. apply Hall. by rewrite <- Hrounds.
  - unfold roundsToRun. lia.
  - by right.
Qed.

Lemma filter_required_count_fits_witness :
  filterMatch thresholdConfig (fun _ => Returned true) = Some (Returned (2 <=? 3)).
Proof.
  apply (filter_required_count_fits thresholdConfig (fun _ => Returned true)).
  - unfold timesExact. cbn. lia.
  - discriminate.
  - intros j _. reflexivity.
Defined.

(** X7. When [filterMatch] runs its loop and returns true, the filter
    evaluator has just matched in [consecutiveMatchCount] consecutive
    rounds: some round matched, and so did every round of the window of that
    length that ends with it. *)
Theorem filter_true_after_run (cfg : BotConfig) (answers : nat -> Outcome bool) :
  filterCheckDisabled cfg = false ->
  filterMatch cfg answers = Some (Returned true) ->
  exists last,
    answers last = Returned true
    /\ forall j,
        Z.of_nat last + 1 - BotConfig.consecutiveMatchCount cfg <= Z.of_nat j <= Z.of_nat last ->
        answers j = Returned true.
Proof.
  intros Hon. unfold filterMatch. rewrite Hon.
  apply filterLoop_true_run; [lia |]. intros j Hj. lia.
Qed.

Lemma filter_true_after_run_witness :
  exists last,
    failsThenMatches last = Returned true
    /\ forall j,
        Z.of_nat last + 1 - 2 <= Z.of_nat j <= Z.of_nat last ->
        failsThenMatches j = Returned true.
Proof.
  apply (filter_true_after_run thresholdConfig failsThenMatches).
  - reflexivity.
  - vm_compute. reflexivity.
Defined.

(** ** The admission rule in its least terms *)

Lemma tryAdmitBuy_rule (cfg : BotConfig) (bot : Bot) :
  tryAdmitBuy cfg bot
  = if (0 <? semaphore bot) && (sellExecutionCount bot <? semaphore bot)
    then Some (setSemaphore (semaphore bot - 1) bot)
    else None.
Proof.
  unfold tryAdmitBuy, buyRejected, numberOfActionsBeingProcessed, Semaphore.isLocked,
    Semaphore.getValue, Semaphore.acquire.
  destruct (Z.leb_spec (semaphore bot) 0);
    destruct (Z.ltb_spec 0 (semaphore bot)); try lia; simpl; [done |].
  destruct (Z.leb_spec (BotConfig.maxTokensAtTheTime cfg)
              (BotConfig.maxTokensAtTheTime cfg - semaphore bot + sellExecutionCount bot));
    destruct (Z.ltb_spec (sellExecutionCount bot) (semaphore bot)); try lia; [done |].
  destruct (Z.leb_spec 1 (semaphore bot)); [done | lia].
Qed.

(** X8. The configured maximum cancels out of the admission test: a buy
    attempt is admitted exactly when a permit is free and fewer sells are in
    progress than permits are free, and it then takes one permit at once,
    without waiting. In a state the gate can reach this is the case exactly
    when the buy tasks that hold a permit and the sells in progress are
    together fewer than the maximum. *)
Theorem admission_counts_sells (cfg : BotConfig) (bot : Bot) (holders : nat) :
  0 <= BotConfig.maxTokensAtTheTime cfg ->
  gateReachable cfg (bot, holders) ->
  tryAdmitBuy cfg bot
  = (if (0 <? semaphore bot) && (sellExecutionCount bot <? semaphore bot)
     then Some (setSemaphore (semaphore bot - 1) bot)
     else None)
  /\ (is_Some (tryAdmitBuy cfg bot)
      <-> Z.of_nat holders + sellExecutionCount bot < BotConfig.maxTokensAtTheTime cfg).
Proof.
  intros HN Hreach. split; [apply tryAdmitBuy_rule |].
  destruct (gate_invariant cfg _ HN Hreach) as (Hsem & Hpos & Hsells).
  cbn [fst snd] in *. rewrite tryAdmitBuy_rule.
  destruct (Z.ltb_spec 0 (semaphore bot));
    destruct (Z.ltb_spec (sellExecutionCount bot) (semaphore bot)); simpl;
    (split; [intros [x Hx]; try done; lia | intros Hlt; try lia; by eexists]).
Qed.

Lemma admission_counts_sells_witness :
  tryAdmitBuy thresholdConfig busyBot = None.
Proof.
  assert (Hreach : gateReachable thresholdConfig (busyBot, 1%nat)).
  { exists (idleBot 2, 0%nat). split.
    - repeat split.
    - eapply rtc_l; [apply (gate_admit _ _ (idleBot 1)); reflexivity |].
      eapply rtc_l; [apply gate_sell_enter |].
      apply rtc_refl. }
  rewrite (proj1 (admission_counts_sells thresholdConfig busyBot 1
                    ltac:(vm_compute; discriminate) Hreach)).
  reflexivity.
Defined.

(** ** What a buy changes *)

(** X9. A call of [buy] changes nothing but the active-trades entry of its
    mint: balance, sequence counter, permits, sell counter, watermarks,
    journal and the trades of other mints are as before. The entry of the
    mint is untouched when the call is skipped (not listed, no permit, no
    filter match), is deleted when an exception reached the [catch], even if
    it was there before the call, and is a fresh trade in state [Started]
    when the retry loop was reached, confirmed or not. *)
Theorem buy_effect (cfg : BotConfig) (env : BuyEnv) (mint : string) (bot bot' : Bot)
    (path : BuyPath) :
  buy cfg env mint bot = Some (path, bot') ->
  bot' = setTrades (trades bot') bot
  /\ (forall other, other ≠ mint -> trades bot' !! other = trades bot !! other)
  /\ trades bot' !! mint
     = match path with
       | BuyNotListed | BuySkipped | BuyNoMatch => trades bot !! mint
       | BuyFailed => None
       | BuyConfirmed | BuyUnconfirmed => Some (Trade.transitionStart (Trade.create mint))
       end.
Proof.
  unfold buy. rewrite tryAdmitBuy_rule.
  unfold buyTry, buyOpen, releaseBuy, Semaphore.release.
  destruct bot as [bal count trs sem sells wms jrn].
  intros Hbuy. unfold setTrades, setSemaphore in *. cbn in Hbuy.
  repeat case_match; simplify_eq; cbn;
    (split; [f_equal; lia |]);
    (split; [intros other Hne;
             rewrite ?lookup_delete_ne, ?lookup_insert_ne by done; done |]);
    rewrite ?lookup_delete_eq, ?lookup_insert_eq; done.
Qed.

Lemma buy_effect_witness :
  trades (setTrades ∅ staleBot) !! "mint" = None.
Proof.
  refine (proj2 (proj2 (buy_effect thresholdConfig brokenBuyEnv "mint" staleBot
                          (setTrades ∅ staleBot) BuyFailed _))).
  vm_compute. reflexivity.
Defined.

Lemma buyRetryLoop_true (swaps : nat -> Outcome bool) (remaining : nat) :
  forall i,
    buyRetryLoop swaps remaining i = true ->
    exists k, (i <= k < i + remaining)%nat
              /\ swaps k = Returned true
              /\ forall j, (i <= j < k)%nat -> swaps j ≠ Returned true.
Proof.
  induction remaining as [| remaining IH]; intros i; simpl; [done |].
  destruct (swaps i) as [[|] |] eqn:Hi.
  - intros _. exists i. split; [lia |]. split; [done |]. intros j Hj. lia.
  - intros Hloop. destruct (IH _ Hloop) as (k & Hk & Hconf & Hbefore).
    exists k. split; [lia |]. split; [done |].
    intros j Hj. destruct (decide (j = i)) as [-> | Hne]; [congruence |].
    apply Hbefore. lia.
  - intros Hloop. destruct (IH _ Hloop) as (k & Hk & Hconf & Hbefore).
    exists k. split; [lia |]. split; [done |].
    intros j Hj. destruct (decide (j = i)) as [-> | Hne]; [congruence |].
    apply Hbefore. lia.
Qed.

(** X10. A buy ends as confirmed only when one of its first [maxBuyRetries]
    swap attempts was confirmed, every attempt before that one having
    thrown or come back unconfirmed; it ends as unconfirmed only when none
    of them was confirmed. An attempt that throws counts like an
    unconfirmed one. *)
Theorem buy_outcome_attempts (cfg : BotConfig) (env : BuyEnv) (mint : string)
    (bot bot' : Bot) (path : BuyPath) :
  buy cfg env mint bot = Some (path, bot') ->
  match path with
  | BuyConfirmed =>
      exists k, (k < BotConfig.maxBuyRetries cfg)%nat
                /\ buySwaps env k = Returned true
                /\ forall j, (j < k)%nat -> buySwaps env j ≠ Returned true
  | BuyUnconfirmed =>
      forall k, (k < BotConfig.maxBuyRetries cfg)%nat -> buySwaps env k ≠ Returned true
  | _ => True
  end.
Proof.
  unfold buy, buyTry, buyOpen. intros Hbuy.
  destruct path; try done.
  - assert (Hloop : buyRetryLoop (buySwaps env) (BotConfig.maxBuyRetries cfg) 0 = true).
    { repeat case_match; simplify_eq; done. }
    destruct (buyRetryLoop_true _ _ _ Hloop) as (k & Hk & Hconf & Hbefore).
    exists k. split; [lia |]. split; [done |]. intros j Hj. apply Hbefore. lia.
  - assert (Hloop : buyRetryLoop (buySwaps env) (BotConfig.maxBuyRetries cfg) 0 = false).
    { repeat case_match; simplify_eq; done. }
    intros k Hk. eapply buyRetryLoop_false; [exact Hloop | lia].
Qed.

Lemma buy_outcome_attempts_witness :
  exists k, (k < 3)%nat
            /\ buySwaps thirdTimeBuyEnv k = Returned true
            /\ forall j, (j < k)%nat -> buySwaps thirdTimeBuyEnv j ≠ Returned true.
Proof.
  apply (buy_outcome_attempts thresholdConfig thirdTimeBuyEnv "mint" (idleBot 2)
           (setTrades {[ "mint" := Trade.transitionStart (Trade.create "mint") ]} (idleBot 2))
           BuyConfirmed).
  vm_compute. reflexivity.
Defined.

(** X11. When the filter evaluator throws in a round of the qualification
    loop that is reached, [filterMatch] throws, and a buy that was admitted
    and had resolved its accounts ends in its [catch]: the permit is given
    back, the active-trades entry of the mint is deleted, and nothing else
    changes. *)
Theorem filter_throw_fails_buy (cfg : BotConfig) (env : BuyEnv) (mint : string)
    (bot : Bot) (n : nat) (matchCount : Z) :
  filterCheckDisabled cfg = false ->
  filterState cfg (filterAnswers env) n 0 0 = Some matchCount ->
  filterAnswers env n = Thrown ->
  BotConfig.useSnipeList cfg = false ->
  buyRejected cfg bot = false ->
  buyAccounts env = Returned tt ->
  filterMatch cfg (filterAnswers env) = Some Thrown
  /\ buy cfg env mint bot = Some (BuyFailed, setTrades (delete mint (trades bot)) bot).
Proof.
  intros Hon Hst Hthrow Hlist Hfree Hacc.
  pose proof (filterMatch_throw cfg (filterAnswers env) n matchCount Hon Hst Hthrow)
    as Hfilter.
  split; [done |].
  assert (Hadmit : tryAdmitBuy cfg bot = Some (setSemaphore (semaphore bot - 1) bot)).
  { rewrite tryAdmitBuy_rule.
    apply not_true_iff_false in Hfree. rewrite buyRejected_spec in Hfree.
    destruct (Z.ltb_spec 0 (semaphore bot)); [| lia].
    destruct (Z.ltb_spec (sellExecutionCount bot) (semaphore bot)); [done | lia]. }
  unfold buy. rewrite Hlist, Hadmit. cbn [andb].
  unfold buyTry. rewrite Hacc, Hlist, Hfilter.
  unfold releaseBuy, Semaphore.release, setTrades, setSemaphore.
  destruct bot; simpl. do 3 f_equal. lia.
Qed.

Lemma filter_throw_fails_buy_witness :
  buy thresholdConfig throwingBuyEnv "mint" staleBot
  = Some (BuyFailed, setTrades (delete "mint" (trades staleBot)) staleBot).
Proof.
  refine (proj2 (filter_throw_fails_buy thresholdConfig throwingBuyEnv "mint" staleBot
                   0 0 _ _ _ _ _ _)); reflexivity.
Defined.

(** ** What a sell changes *)

Lemma waitForSellSignal_frame (cfg : BotConfig) (mint : string)
    (quotes : nat -> option TokenAmount) (wm wm' : Watermarks) (result : bool) :
  waitForSellSignal cfg mint quotes wm = Some (result, wm') ->
  forall other, other ≠ mint -> wm' !! other = wm !! other.
Proof.
  unfold waitForSellSignal. destruct (priceCheckDisabled cfg); [by intros [= <- <-] |].
  unfold sellSignalLoop.
  destruct (initStopLoss_stored cfg mint wm) as [Hstored Hframe0].
  destruct (initStopLoss cfg mint wm) as [s wm0]. cbn [fst snd] in Hstored, Hframe0.
  destruct (priceLoop cfg mint quotes (takeProfitThreshold cfg) _ 0%nat s wm0)
    as [[e wm1] |] eqn:Hloop; [| done].
  intros [= <- <-] other Hne.
  destruct (priceLoop_exit _ _ _ _ _ _ _ _ _ _ Hstored Hloop) as [_ Hframe].
  rewrite Hframe by done. by apply Hframe0.
Qed.

(** The retry loop of [sell] returns, and changes nothing but the
    watermark of the mint. *)
Lemma sellRetryLoop_effect (cfg : BotConfig) (env : SellEnv) (mint : string)
    (remaining : nat) :
  forall i bot,
    exists wm,
      sellRetryLoop cfg env mint remaining i bot = Some (setStopLoss wm bot)
      /\ forall other, other ≠ mint -> wm !! other = stopLoss bot !! other.
Proof.
  induction remaining as [| remaining IH]; intros i bot; simpl.
  - exists (stopLoss bot). split; [by destruct bot | done].
  - destruct (waitForSellSignal_total cfg mint (sellQuotes env i) (stopLoss bot))
      as [[result wm] Hcall].
    rewrite Hcall.
    pose proof (waitForSellSignal_frame _ _ _ _ _ _ Hcall) as Hframe.
    destruct result; [| by exists wm].
    destruct (sellSwaps env i) as [[|] |]; [by exists wm | |].
    + destruct (IH (S i) (setStopLoss wm bot)) as (wm' & Hloop & Hframe').
      exists wm'. split; [by rewrite Hloop |].
      intros other Hne. rewrite Hframe' by done. by apply Hframe.
    + destruct (IH (S i) (setStopLoss wm bot)) as (wm' & Hloop & Hframe').
      exists wm'. split; [by rewrite Hloop |].
      intros other Hne. rewrite Hframe' by done. by apply Hframe.
Qed.

(** X12. When the mint has an active trade and the balance refresh
    returns, every call of [sell] ends the same way, whatever its path
    (pool data missing, empty balance, no sell signal, swap confirmed, all
    attempts unconfirmed, or an exception): the trade leaves the
    active-trades map, the sequence counter grows by exactly one, the
    journal gains at most one record, which carries that sequence number and
    the refreshed balance, the balance is the refreshed one, the sell
    counter and the permits are as before, and no trade or watermark of
    another mint changes. *)
Theorem sell_always_finalises (cfg : BotConfig) (env : SellEnv) (acct : RawAccount)
    (bot : Bot) (trade : Trade) (total : Q) :
  trades bot !! mint acct = Some trade ->
  refreshedBalance env = Returned total ->
  exists bot',
    sell cfg env acct bot = Some (Returned tt, bot')
    /\ trades bot' = delete (mint acct) (trades bot)
    /\ tradesCount bot' = tradesCount bot + 1
    /\ journal bot'
       = (if journalWritten env
          then journal bot
               ++ [Trade.complete total (tradesCount bot + 1) (journaledTrade env acct trade)]
          else journal bot)
    /\ balance bot' = total
    /\ sellExecutionCount bot' = sellExecutionCount bot
    /\ semaphore bot' = semaphore bot
    /\ forall other, other ≠ mint acct -> stopLoss bot' !! other = stopLoss bot !! other.
Proof.
  intros Htrade Hrefresh.
  unfold sell, sellTry, journaledTrade, sellFinally. rewrite Hrefresh.
  destruct bot as [bal count trs sem sells wms jrn]. cbn in Htrade.
  unfold TokenAmount.isZero. cbn [TokenAmount.raw].
  destruct (poolData env) as [[|] |].
  - destruct (amount acct =? 0).
    + eexists. split; [reflexivity |].
      unfold journalTrade, sellLeave, sellEnter. cbn. rewrite Htrade.
      destruct (journalWritten env); cbn; repeat split; lia.
    + destruct (sellAccounts env) as [[] |].
      * match goal with
        | |- context [sellRetryLoop cfg env ?m ?n ?i ?b] =>
            destruct (sellRetryLoop_effect cfg env m n i b) as (wm & -> & Hframe)
        end.
        eexists. split; [reflexivity |].
        unfold journalTrade, sellLeave, sellEnter. cbn.
        rewrite lookup_alter_eq, Htrade. cbn.
        destruct (journalWritten env); cbn; rewrite delete_alter_eq;
          repeat split; try lia; exact Hframe.
      * eexists. split; [reflexivity |].
        unfold journalTrade, sellCatch, sellLeave, sellEnter. cbn. rewrite Htrade. cbn.
        rewrite lookup_insert_eq.
        destruct (journalWritten env); cbn; rewrite delete_insert_eq;
          repeat split; lia.
  - eexists. split; [reflexivity |].
    unfold journalTrade, sellLeave, sellEnter. cbn. rewrite Htrade.
    destruct (journalWritten env); cbn; repeat split; lia.
  - eexists. split; [reflexivity |].
    unfold journalTrade, sellCatch, sellLeave, sellEnter. cbn. rewrite Htrade. cbn.
    rewrite lookup_insert_eq.
    destruct (journalWritten env); cbn; rewrite delete_insert_eq;
      repeat split; lia.
Qed.

Lemma sell_always_finalises_witness :
  exists bot',
    sell thresholdConfig crashedSellEnv (mkRawAccount "mint" 500) holdingBot
    = Some (Returned tt, bot')
    /\ trades bot' = delete "mint" (trades holdingBot)
    /\ journal bot' = [Trade.complete 7 5 (Trade.transitionStart openTrade)].
Proof.
  destruct (sell_always_finalises thresholdConfig crashedSellEnv
              (mkRawAccount "mint" 500) holdingBot openTrade 7
              ltac:(vm_compute; reflexivity) ltac:(reflexivity))
    as (bot' & Hsell & Htrades & _ & Hjournal & _).
  exists bot'. repeat split; assumption.
Defined.

(** X13. When the mint has no active trade and the balance refresh returns,
    [sell] journals nothing: the active-trades map, the sequence counter and
    the journal are as before, whatever the swaps did; only the balance is
    refreshed and the watermark of the mint may have changed. *)
Theorem sell_untracked_not_journaled (cfg : BotConfig) (env : SellEnv)
    (acct : RawAccount) (bot : Bot) (total : Q) :
  trades bot !! mint acct = None ->
  refreshedBalance env = Returned total ->
  exists wm,
    sell cfg env acct bot = Some (Returned tt, setStopLoss wm (setBalance total bot))
    /\ forall other, other ≠ mint acct -> wm !! other = stopLoss bot !! other.
Proof.
  intros Htrade Hrefresh.
  unfold sell, sellTry, sellFinally. rewrite Hrefresh.
  destruct bot as [bal count trs sem sells wms jrn]. cbn in Htrade.
  unfold TokenAmount.isZero. cbn [TokenAmount.raw].
  assert (Hsame : forall wm : Watermarks,
    sellLeave (journalTrade env acct
                 (setBalance total (mkBot bal count trs sem (sells + 1) wm jrn)))
    = setStopLoss wm (setBalance total (mkBot bal count trs sem sells wms jrn))).
  { intros wm. unfold journalTrade, sellLeave. cbn. rewrite Htrade. cbn.
    unfold setSellExecutionCount, setStopLoss, setBalance. cbn. f_equal. lia. }
  destruct (poolData env) as [[|] |].
  - destruct (amount acct =? 0).
    + exists wms. unfold sellEnter. cbn. split; [| done].
      do 2 f_equal. apply Hsame.
    + destruct (sellAccounts env) as [[] |].
      * match goal with
        | |- context [sellRetryLoop cfg env ?m ?n ?i ?b] =>
            destruct (sellRetryLoop_effect cfg env m n i b) as (wm & -> & Hframe)
        end.
        exists wm. split; [| exact Hframe].
        unfold sellEnter. cbn. rewrite (alter_id' _ _ _ Htrade).
        do 2 f_equal. apply Hsame.
      * exists wms. unfold sellEnter, sellCatch. cbn. rewrite Htrade.
        split; [| done]. do 2 f_equal. apply Hsame.
  - exists wms. unfold sellEnter. cbn. split; [| done].
    do 2 f_equal. apply Hsame.
  - exists wms. unfold sellEnter, sellCatch. cbn. rewrite Htrade.
    split; [| done]. do 2 f_equal. apply Hsame.
Qed.

Lemma sell_untracked_not_journaled_witness :
  exists wm,
    sell thresholdConfig crashedSellEnv (mkRawAccount "mint" 500) (idleBot 2)
    = Some (Returned tt, setStopLoss wm (setBalance 7 (idleBot 2)))
    /\ forall other, other ≠ "mint" -> wm !! other = stopLoss (idleBot 2) !! other.
Proof.
  apply (sell_untracked_not_journaled thresholdConfig crashedSellEnv
           (mkRawAccount "mint" 500) (idleBot 2) 7); reflexivity.
Defined.

(** X14. When the balance refresh at the end of [sell] throws, the rest of
    the [finally] block is skipped: the call ends with that exception, the
    sell counter stays one above its value before the call, and nothing is
    journaled (sequence counter and journal as before, the trade of the
    mint still in the map if there was one). The counter that is left behind
    counts as a sell in progress at the admission gate: a later buy attempt
    is skipped as soon as the free permits do not exceed the sell counter
    by more than one. *)
Theorem sell_refresh_throw_leaks_counter (cfg : BotConfig) (env : SellEnv)
    (acct : RawAccount) (bot : Bot) :
  refreshedBalance env = Thrown ->
  exists bot',
    sell cfg env acct bot = Some (Thrown, bot')
    /\ sellExecutionCount bot' = sellExecutionCount bot + 1
    /\ semaphore bot' = semaphore bot
    /\ tradesCount bot' = tradesCount bot
    /\ journal bot' = journal bot
    /\ (is_Some (trades bot' !! mint acct) <-> is_Some (trades bot !! mint acct))
    /\ (semaphore bot <= sellExecutionCount bot + 1 -> tryAdmitBuy cfg bot' = None).
Proof.
  intros Hrefresh.
  assert (Hgate : forall bot' : Bot,
    sellExecutionCount bot' = sellExecutionCount bot + 1 ->
    semaphore bot' = semaphore bot ->
    semaphore bot <= sellExecutionCount bot + 1 -> tryAdmitBuy cfg bot' = None).
  { intros bot' Hs Hp Hle. rewrite tryAdmitBuy_rule, Hs, Hp.
    destruct (Z.ltb_spec (sellExecutionCount bot + 1) (semaphore bot)); [lia |].
    by rewrite andb_false_r. }
  unfold sell, sellTry, sellFinally. rewrite Hrefresh.
  unfold TokenAmount.isZero. cbn [TokenAmount.raw].
  destruct (poolData env) as [[|] |].
  - destruct (amount acct =? 0).
    + eexists. split; [reflexivity |]. unfold sellEnter. cbn.
      repeat split; try done. by apply Hgate.
    + destruct (sellAccounts env) as [[] |].
      * match goal with
        | |- context [sellRetryLoop cfg env ?m ?n ?i ?b] =>
            destruct (sellRetryLoop_effect cfg env m n i b) as (wm & -> & Hframe)
        end.
        eexists. split; [reflexivity |]. unfold sellEnter. cbn.
        rewrite lookup_alter_eq, fmap_is_Some.
        repeat split; try done. by apply Hgate.
      * eexists. split; [reflexivity |]. unfold sellEnter, sellCatch. cbn.
        destruct (trades bot !! mint acct) as [trade |] eqn:Htrade; cbn.
        -- rewrite lookup_insert_eq. repeat split; try done; try (by eexists).
           by apply Hgate.
        -- rewrite Htrade. repeat split; try done. by apply Hgate.
  - eexists. split; [reflexivity |]. unfold sellEnter. cbn.
    repeat split; try done. by apply Hgate.
  - eexists. split; [reflexivity |]. unfold sellEnter, sellCatch. cbn.
    destruct (trades bot !! mint acct) as [trade |] eqn:Htrade; cbn.
    + rewrite lookup_insert_eq. repeat split; try done; try (by eexists).
      by apply Hgate.
    + rewrite Htrade. repeat split; try done. by apply Hgate.
Qed.

Lemma sell_refresh_throw_leaks_counter_witness :
  exists bot',
    sell thresholdConfig offlineSellEnv (mkRawAccount "mint" 500) (idleBot 1)
    = Some (Thrown, bot')
    /\ sellExecutionCount bot' = 1
    /\ tryAdmitBuy thresholdConfig bot' = None.
Proof.
  destruct (sell_refresh_throw_leaks_counter thresholdConfig offlineSellEnv
              (mkRawAccount "mint" 500) (idleBot 1) ltac:(reflexivity))
    as (bot' & Hsell & Hcount & _ & _ & _ & _ & Hgate).
  exists bot'. split; [exact Hsell |]. split; [exact Hcount |].
  apply Hgate. vm_compute. discriminate.
Defined.

(** ** The instructions of a swap transaction *)

Lemma omap_pool_instructions (inner : list string) :
  omap isPoolInstruction (PoolInstruction <$> inner) = inner.
Proof. induction inner as [| data inner IH]; [done |]. simpl. f_equal. exact IH. Qed.

Lemma pool_instruction_elem (inner : list string) (i : Instruction) :
  i ∈ (PoolInstruction <$> inner) -> exists data, i = PoolInstruction data.
Proof.
  induction inner as [| data inner IH]; simpl.
  - by intros ?%elem_of_nil.
  - intros [-> | Hin]%elem_of_cons; [by eexists | by apply IH].
Qed.

(** X15. The instruction list that [swap] signs keeps the pool library's
    instructions in their order and adds nothing between them. Compute-budget
    instructions are in the list exactly for an executor that is neither the
    warp nor the jito one, and then they come first. A buy has exactly one
    more instruction, the idempotent creation of the destination token
    account, right before the pool instructions, and never closes an
    account; a sell ends with the closing of the source token account in
    favour of the wallet and creates no account. *)
Theorem swap_instruction_layout (executor : ExecutorKind) (unitPrice unitLimit : Z)
    (direction : Direction) (wallet ataIn ataOut tokenOutMint : string)
    (inner : list string) :
  let instructions :=
    swapInstructions executor unitPrice unitLimit direction wallet ataIn ataOut
                     tokenOutMint inner in
  let budget :=
    match executor with
    | DefaultExecutor => [SetComputeUnitPrice unitPrice; SetComputeUnitLimit unitLimit]
    | WarpExecutor | JitoExecutor => []
    end in
  omap isPoolInstruction instructions = inner
  /\ length instructions = (length budget + 1 + length inner)%nat
  /\ take (length budget) instructions = budget
  /\ ((exists price, SetComputeUnitPrice price ∈ instructions)
      <-> executor = DefaultExecutor)
  /\ match direction with
     | DirectionBuy =>
         instructions
         = budget
           ++ CreateAssociatedTokenAccountIdempotent wallet ataOut wallet tokenOutMint
              :: (PoolInstruction <$> inner)
         /\ forall account destination authority,
             CloseAccount account destination authority ∉ instructions
     | DirectionSell =>
         instructions = budget ++ (PoolInstruction <$> inner) ++ [CloseAccount ataIn wallet wallet]
         /\ last instructions = Some (CloseAccount ataIn wallet wallet)
         /\ forall payer ata owner tokenMint,
             CreateAssociatedTokenAccountIdempotent payer ata owner tokenMint ∉ instructions
     end.
Proof.
  cbv zeta. unfold swapInstructions.
  assert (Hpool : forall i, i ∈ (PoolInstruction <$> inner) ->
                            exists data, i = PoolInstruction data)
    by apply pool_instruction_elem.
  assert (Hnot : forall i rest,
            (forall data, i <> PoolInstruction data) ->
            (forall j, j ∈ rest -> i <> j) ->
            i ∉ (PoolInstruction <$> inner) ++ rest).
  { intros i rest Hi Hrest [Hin | Hin]%elem_of_app.
    - destruct (Hpool _ Hin) as [data ->]. by eapply Hi.
    - by eapply Hrest. }
  split.
  { rewrite !omap_app, omap_pool_instructions.
    destruct executor, direction; cbn; by rewrite ?app_nil_r. }
  split.
  { rewrite !length_app, length_fmap. destruct executor, direction; cbn; lia. }
  split.
  { destruct executor; done. }
  split.
  { split.
    - intros [price Hin]. destruct executor; [done | exfalso | exfalso];
        cbn [isWarp isJito orb app] in Hin;
        destruct direction; cbn [app] in Hin;
        try (apply elem_of_cons in Hin as [Heq | Hin]; [done |]);
        (revert Hin; apply Hnot; [done |]);
        intros j Hj; try (apply list_elem_of_singleton in Hj as ->; done);
        by apply elem_of_nil in Hj.
    - intros ->. eexists. apply list_elem_of_here. }
  destruct direction.
  - split.
    { destruct executor; cbn; by rewrite ?app_nil_r. }
    intros account destination authority Hin.
    destruct executor; cbn [isWarp isJito orb app] in Hin;
      repeat (apply elem_of_cons in Hin as [Heq | Hin]; [done |]);
      (revert Hin; apply Hnot; [done |]);
      intros j Hj; by apply elem_of_nil in Hj.
  - split.
    { destruct executor; done. }
    split.
    { rewrite !last_app. done. }
    intros payer ata owner tokenMint Hin.
    destruct executor; cbn [isWarp isJito orb app] in Hin;
      repeat (apply elem_of_cons in Hin as [Heq | Hin]; [done |]);
      (revert Hin; apply Hnot; [done |]);
      intros j Hj; by apply list_elem_of_singleton in Hj as ->.
Qed.

(** ** Bookkeeping after a swap *)


(** ** Start-up *)

Lemma splitLines_line (line rest : string) :
  newlineFree line = true ->
  splitLines (String.append line (String newline rest)) = line :: splitLines rest.
Proof.
  induction line as [| c line IH]; simpl.
  - done.
  - intros [Hc Hline]%andb_true_iff. apply negb_true_iff in Hc.
    rewrite Hc, (IH Hline). done.
Qed.

(** A file written line by line reads back as its lines. *)
Lemma journalLines_appended (lines : list string) :
  Forall (fun line => newlineFree line = true /\ line <> EmptyString) lines ->
  journalLines (appendedLines lines) = lines.
Proof.
  unfold journalLines. induction 1 as [| line lines [Hfree Hne] Hall IH]; [done |].
  simpl. rewrite splitLines_line by done. simpl.
  rewrite IH. by destruct line.
Qed.

Lemma parseLines_records (parse : string -> Outcome Parsed) (lines : list string)
    (ids : list Z) :
  Forall2 (fun line id => parse line = Returned (ParsedRecord id)) lines ids ->
  parseLines parse lines = Returned (ParsedRecord <$> ids).
Proof.
  induction 1 as [| line id lines ids Hline Hall IH]; [done |].
  simpl. by rewrite Hline, IH.
Qed.

Lemma parseLines_throw (parse : string -> Outcome Parsed) (lines : list string)
    (line : string) :
  line ∈ lines -> parse line = Thrown -> parseLines parse lines = Thrown.
Proof.
  intros Hin Hthrow. induction Hin as [line lines | line other lines Hin IH]; simpl.
  - by rewrite Hthrow.
  - destruct (parse other); [| done]. by rewrite IH.
Qed.

(** X17. Started on a journal file that consists of non-empty lines, each
    followed by a newline, all of which parse to records, [init] sets the
    balance to the refreshed total and the sequence counter to the [id] of
    the last record; on an empty file it leaves the counter as it is. *)
Theorem init_recovers_last_id (env : InitEnv) (bot : Bot) (total : Q)
    (lines : list string) (ids : list Z) :
  initBalance env = Returned total ->
  journalFile env = Returned (appendedLines lines) ->
  Forall (fun line => newlineFree line = true /\ line <> EmptyString) lines ->
  Forall2 (fun line id => parseLine env line = Returned (ParsedRecord id)) lines ids ->
  init env bot
  = (Returned tt,
     match last ids with
     | Some id => setTradesCount id (setBalance total bot)
     | None => setBalance total bot
     end).
Proof.
  intros Hbalance Hfile Hlines Hparse. unfold init.
  rewrite Hbalance, Hfile, (journalLines_appended _ Hlines),
    (parseLines_records _ _ _ Hparse), fmap_last.
  by destruct (last ids).
Qed.

Lemma init_recovers_last_id_witness :
  init (sampleInitEnv (appendedLines ["one"; "two"])) (idleBot 2)
  = (Returned tt, setTradesCount 2 (setBalance 7 (idleBot 2))).
Proof.
  apply (init_recovers_last_id (sampleInitEnv (appendedLines ["one"; "two"]))
           (idleBot 2) 7 ["one"; "two"] [1; 2]).
  - reflexivity.
  - reflexivity.
  - repeat constructor; done.
  - repeat constructor.
Defined.

(** X18. [init] parses every non-empty line of the journal file before it
    looks at the last one: when any of them does not parse, [init] throws
    and the sequence counter keeps its value, although the balance has
    already been refreshed. Empty lines are never parsed. *)
Theorem init_bad_line_throws (env : InitEnv) (bot : Bot) (total : Q)
    (data line : string) :
  initBalance env = Returned total ->
  journalFile env = Returned data ->
  line ∈ splitLines data ->
  line <> EmptyString ->
  parseLine env line = Thrown ->
  init env bot = (Thrown, setBalance total bot)
  /\ EmptyString ∉ journalLines data.
Proof.
  intros Hbalance Hfile Hin Hne Hthrow. split.
  - unfold init. rewrite Hbalance, Hfile.
    rewrite (parseLines_throw _ _ line); [done | | done].
    unfold journalLines. apply list_elem_of_In, filter_In.
    split; [by apply list_elem_of_In |]. by destruct line.
  - unfold journalLines. intros Hin'%list_elem_of_In%filter_In. by destruct Hin'.
Qed.

Lemma init_bad_line_throws_witness :
  init (sampleInitEnv (appendedLines ["one"; "torn"; "two"])) (idleBot 2)
  = (Thrown, setBalance 7 (idleBot 2)).
Proof.
  refine (proj1 (init_bad_line_throws
                   (sampleInitEnv (appendedLines ["one"; "torn"; "two"]))
                   (idleBot 2) 7 (appendedLines ["one"; "torn"; "two"]) "torn" _ _ _ _ _)).
  - reflexivity.
  - reflexivity.
  - vm_compute. apply list_elem_of_In. right. left. reflexivity.
  - discriminate.
  - reflexivity.
Defined.

(** ** A quote that stays at the entry amount *)

Section SteadyRounds.

Variable cfg : BotConfig.
Variable mint : string.
Variable quotes : nat -> option TokenAmount.
Variable takeProfit stopLoss : TokenAmount.
Variable wm : Watermarks.

Hypothesis steady :
  forall k, priceRound cfg mint takeProfit (quotes k) stopLoss wm = RoundNext stopLoss wm.

Lemma priceLoop_steady (fuel : nat) :
  forall k,
    Qceiling (priceBudget cfg) <= Z.of_nat k + Z.of_nat fuel -> (0 < fuel)%nat ->
    priceLoop cfg mint quotes takeProfit fuel k stopLoss wm = Some (ExitBudget, wm).
Proof.
  induction fuel as [| fuel IH]; intros k Hfuel Hpos; [lia |].
  simpl. rewrite steady.
  destruct (belowBudget (S k) (priceBudget cfg)) eqn:Hb; [| done].
  destruct (fuel_left k fuel _ Hfuel Hb) as [Hfuel' Hpos']. by apply IH.
Qed.

Lemma roundState_steady (n : nat) :
  forall k,
    roundState cfg mint quotes takeProfit n k stopLoss wm
    = if decide (n = 0%nat \/ Z.of_nat (k + n) < Qceiling (priceBudget cfg))
      then Some (stopLoss, wm) else None.
Proof.
  induction n as [| n IH]; intros k.
  - cbn [roundState].
    destruct (decide (0%nat = 0%nat \/ Z.of_nat (k + 0) < Qceiling (priceBudget cfg)))
      as [Hd | Hd]; [done |].
    exfalso. apply Hd. by left.
  - cbn [roundState]. rewrite steady.
    destruct (belowBudget (S k) (priceBudget cfg)) eqn:Hb.
    + rewrite IH. apply belowBudget_iff in Hb.
      destruct (decide (n = 0%nat \/ Z.of_nat (S k + n) < Qceiling (priceBudget cfg)))
        as [Hin | Hin];
        destruct (decide (S n = 0%nat \/ Z.of_nat (k + S n) < Qceiling (priceBudget cfg)))
          as [Hout | Hout]; try done; exfalso.
      * apply Hout. right. destruct Hin as [-> | Hlt]; lia.
      * apply Hin. right. destruct Hout as [? | Hlt]; [done | lia].
    + destruct (decide (S n = 0%nat \/ Z.of_nat (k + S n) < Qceiling (priceBudget cfg)))
        as [Hd | Hd]; [| done].
      exfalso. destruct Hd as [? | Hlt]; [done |].
      assert (Hlt' : Z.of_nat (S k) < Qceiling (priceBudget cfg)) by lia.
      apply belowBudget_iff in Hlt'. congruence.
Qed.

End SteadyRounds.

(** X19. For a mint without watermark, with an entry amount and percentages
    that are not negative and that the amount arithmetic accepts, a cutoff
    percentage of at most 100, and a positive interval and a duration below
    [2^53] in size, quotes that stay at the entry amount trigger nothing: the
    check runs every one of its [max 1 (ceiling (duration / interval))]
    rounds and no more, returns true by its round budget, and leaves the
    initial stop-loss as the watermark of the mint. *)
Theorem flat_quotes_run_all_rounds (cfg : BotConfig) (mint : string) (wm : Watermarks) :
  let entry := BotConfig.quoteAmount cfg in
  let fresh :=
    TokenAmount.mk (TokenAmount.raw entry
                    - (TokenAmount.raw entry * BotConfig.stopLoss cfg) ÷ 100) in
  let rounds :=
    Z.max 1 (- ((- BotConfig.priceCheckDuration cfg) / BotConfig.priceCheckInterval cfg)) in
  0 <= TokenAmount.raw entry ->
  0 <= BotConfig.takeProfit cfg ->
  0 <= BotConfig.stopLoss cfg ->
  BotConfig.skipSellingIfLostMoreThan cfg <= 100 ->
  percentagesAccepted cfg ->
  timesExact (BotConfig.priceCheckDuration cfg) (BotConfig.priceCheckInterval cfg) ->
  BotConfig.priceCheckDuration cfg <> 0 ->
  wm !! mint = None ->
  waitForSellSignal cfg mint (fun _ => Some entry) wm = Some (true, <[mint := fresh]> wm)
  /\ forall n,
      sellSignalState cfg mint (fun _ => Some entry) wm n
      = if decide (Z.of_nat n < rounds) then Some (fresh, <[mint := fresh]> wm) else None.
Proof.
  intros entry fresh rounds Hentry Htp Hsl Hskip _ [[Hint _] _] Hdur Hwm.
  assert (Hloss : 0 <= (TokenAmount.raw entry * BotConfig.stopLoss cfg) ÷ 100).
  { apply Z.quot_pos; lia. }
  assert (Hgain : 0 <= (TokenAmount.raw entry * BotConfig.takeProfit cfg) ÷ 100).
  { apply Z.quot_pos; lia. }
  assert (Hcut : maxLossCutoff cfg entry = false).
  { unfold maxLossCutoff, TokenAmount.lt, percentOf, TokenAmount.mul_numerator, BN_div.
    fold entry. cbn [TokenAmount.raw].
    destruct (Z.ltb_spec 0 (BotConfig.skipSellingIfLostMoreThan cfg)); [| done].
    cbn [andb]. apply Z.ltb_ge.
    transitivity ((TokenAmount.raw entry * 100) ÷ 100).
    - apply Z.quot_le_mono; [lia |]. apply Z.mul_le_mono_nonneg_l; lia.
    - rewrite Z.quot_mul; lia. }
  assert (Hsteady : forall k : nat,
    priceRound cfg mint (takeProfitThreshold cfg) ((fun _ => Some entry) k) fresh
               (<[mint := fresh]> wm)
    = RoundNext fresh (<[mint := fresh]> wm)).
  { intros k. rewrite priceRound_quote. cbv zeta. rewrite Hcut.
    assert (Hup : trailingUpdate cfg mint entry fresh (<[mint := fresh]> wm)
                  = (fresh, <[mint := fresh]> wm)).
    { unfold trailingUpdate. destruct (BotConfig.trailingStopLoss cfg); [| done].
      unfold TokenAmount.gt, TokenAmount.subtract, percentOf, TokenAmount.mul_numerator,
        BN_div. cbn [TokenAmount.raw].
      by rewrite Z.ltb_irrefl. }
    rewrite Hup. cbn [fst snd].
    assert (Hsl' : (TokenAmount.raw entry <? TokenAmount.raw fresh) = false).
    { apply Z.ltb_ge. unfold fresh. cbn [TokenAmount.raw]. lia. }
    assert (Htp' : (TokenAmount.raw (takeProfitThreshold cfg) <? TokenAmount.raw entry)
                   = false).
    { apply Z.ltb_ge.
      unfold takeProfitThreshold, TokenAmount.add, percentOf, TokenAmount.mul_numerator,
        BN_div. fold entry. cbn [TokenAmount.raw]. lia. }
    by rewrite Hsl', Htp'. }
  assert (Hinit : initStopLoss cfg mint wm = (fresh, <[mint := fresh]> wm)).
  { unfold initStopLoss. by rewrite Hwm. }
  split.
  - unfold waitForSellSignal, priceCheckDisabled.
    destruct (Z.eqb_spec (BotConfig.priceCheckDuration cfg) 0); [done |].
    destruct (Z.eqb_spec (BotConfig.priceCheckInterval cfg) 0); [lia |].
    cbn [orb]. unfold sellSignalLoop. rewrite Hinit.
    destruct (loopFuel_enough (priceBudget cfg)) as [Hfuel Hpos].
    by rewrite (priceLoop_steady cfg mint _ _ _ _ Hsteady _ 0%nat Hfuel Hpos).
  - intros n. unfold sellSignalState. rewrite Hinit.
    rewrite (roundState_steady cfg mint _ _ _ _ Hsteady).
    unfold rounds. unfold priceBudget. rewrite timesToCheck_ceiling by done.
    destruct (decide (n = 0%nat
                      \/ Z.of_nat (0 + n)
                         < - (- BotConfig.priceCheckDuration cfg
                              / BotConfig.priceCheckInterval cfg))) as [Hin | Hin];
      destruct (decide (Z.of_nat n
                        < Z.max 1 (- (- BotConfig.priceCheckDuration cfg
                                      / BotConfig.priceCheckInterval cfg)))) as [Hout | Hout];
      try done; exfalso.
    + apply Hout. destruct Hin as [-> | Hlt]; lia.
    + apply Hin. destruct n as [| n]; [by left |]. right. lia.
Qed.

Lemma flat_quotes_run_all_rounds_witness :
  waitForSellSignal thresholdConfig "mint" (fun _ => Some (TokenAmount.mk 100000000)) ∅
  = Some (true, <[ "mint" := TokenAmount.mk (100000000 - (100000000 * 10) ÷ 100) ]> ∅).
Proof.
  refine (proj1 (flat_quotes_run_all_rounds thresholdConfig "mint" ∅ _ _ _ _ _ _ _ _));
    try reflexivity;
    try (unfold percentagesAccepted, acceptedNumber, MAX_SAFE; cbn; lia);
    try (unfold timesExact; cbn; lia);
    vm_compute; discriminate.
Defined.

(** ** The watermark after a sale forced by expiry *)

(** X20. When the first attempt of a sell finds no trigger, so that its
    exit-signal check ends by the round budget, and the swap of that attempt
    is confirmed, [sell] returns with the position gone from the
    active-trades map but with the watermark of the mint still stored: a
    later exit-signal check for the same mint starts from that watermark
    and does not compute a fresh stop-loss. *)
Theorem expired_sale_keeps_watermark (cfg : BotConfig) (env : SellEnv)
    (acct : RawAccount) (bot : Bot) (total : Q) (wm' : Watermarks) :
  poolData env = Returned true ->
  amount acct <> 0 ->
  sellAccounts env = Returned tt ->
  (0 < BotConfig.maxSellRetries cfg)%nat ->
  priceCheckDisabled cfg = false ->
  sellSignalLoop cfg (mint acct) (sellQuotes env 0) (stopLoss bot) = Some (ExitBudget, wm') ->
  sellSwaps env 0 = Returned true ->
  refreshedBalance env = Returned total ->
  exists bot' stored,
    sell cfg env acct bot = Some (Returned tt, bot')
    /\ trades bot' !! mint acct = None
    /\ stopLoss bot' = wm'
    /\ wm' !! mint acct = Some stored
    /\ forall quotes,
        sellSignalState cfg (mint acct) quotes (stopLoss bot') 0 = Some (stored, wm').
Proof.
  intros Hpool Hamount Haccounts Hretries Hon Hloop Hswap Hrefresh.
  assert (Hstored : exists stored, wm' !! mint acct = Some stored).
  { unfold sellSignalLoop in Hloop.
    destruct (initStopLoss_stored cfg (mint acct) (stopLoss bot)) as [Hinit _].
    destruct (initStopLoss cfg (mint acct) (stopLoss bot)) as [s wm0].
    cbn [fst snd] in Hinit.
    destruct (priceLoop_exit _ _ _ _ _ _ _ _ _ _ Hinit Hloop) as [(stored & Hs & _) _].
    by exists stored. }
  destruct Hstored as [stored Hstored].
  assert (Hsignal : waitForSellSignal cfg (mint acct) (sellQuotes env 0) (stopLoss bot)
                    = Some (true, wm')).
  { unfold waitForSellSignal. by rewrite Hon, Hloop. }
  unfold sell, sellTry, sellFinally. rewrite Hpool, Haccounts, Hrefresh.
  unfold TokenAmount.isZero. cbn [TokenAmount.raw].
  destruct (Z.eqb_spec (amount acct) 0); [done |].
  destruct (BotConfig.maxSellRetries cfg) as [| retries]; [lia |].
  destruct bot as [bal count trs sem sells wms jrn].
  cbn [sellRetryLoop sellEnter setSellExecutionCount setTrades setStopLoss
       stopLoss trades balance tradesCount semaphore sellExecutionCount journal] in *.
  rewrite Hsignal, Hswap.
  eexists _, stored. split; [reflexivity |].
  unfold journalTrade, sellLeave.
  cbn [setBalance setSellExecutionCount setTrades setStopLoss setTradesCount setJournal
       stopLoss trades balance tradesCount semaphore sellExecutionCount journal].
  assert (Hstate : forall quotes,
            sellSignalState cfg (mint acct) quotes wm' 0 = Some (stored, wm')).
  { intros quotes. unfold sellSignalState, initStopLoss. by rewrite Hstored. }
  destruct (alter Trade.transitionStart (mint acct) trs !! mint acct) as [trade |] eqn:Htrade.
  - destruct (journalWritten env); cbn; rewrite lookup_delete_eq; done.
  - cbn. done.
Qed.

Lemma expired_sale_keeps_watermark_witness :
  exists bot' stored,
    sell thresholdConfig calmSellEnv (mkRawAccount "mint" 500) holdingBot
    = Some (Returned tt, bot')
    /\ trades bot' !! "mint" = None
    /\ stopLoss bot' = {[ "mint" := TokenAmount.mk 90000000 ]}
    /\ ({[ "mint" := TokenAmount.mk 90000000 ]} : Watermarks) !! "mint" = Some stored.
Proof.
  destruct (expired_sale_keeps_watermark thresholdConfig calmSellEnv
              (mkRawAccount "mint" 500) holdingBot 7
              {[ "mint" := TokenAmount.mk 90000000 ]}
              ltac:(reflexivity) ltac:(discriminate) ltac:(reflexivity)
              ltac:(vm_compute; lia) ltac:(reflexivity)
              ltac:(vm_compute; reflexivity) ltac:(reflexivity) ltac:(reflexivity))
    as (bot' & stored & Hsell & Hgone & Hwm & Hstored & _).
  exists bot', stored. repeat split; assumption.
Defined.
